(** * Taskbar-Monitor: the status-line widget [sysinfo_widget.py]

    A shallow embedding of the metric readers, the formatter and the
    orchestrator of [sysinfo_widget.py], and the properties of its
    specification checked against it.

    Conventions of the embedding.
    - Python [str] values are [string]s (byte strings; the glyphs of the
      widget are kept as their UTF-8 bytes).
    - Python [int] is [Z]; [//] with a positive divisor is [Z.div] (floor).
    - Python [float] is IEEE binary64, modelled by [spec_float] with
      precision 53 and exponent bound 1024.
    - A computation that may raise returns [option]: [None] is "an
      exception is raised".  Inside a reader every exception is caught by
      the reader's [try]/[except Exception]; in [main] it is not caught.
    - The operating system is an explicit record [Env] holding the content
      of the pseudo-files and the samples of psutil. *)

From Stdlib Require Import ZArith QArith String Ascii List Lia Bool.
From Stdlib Require Import Floats.SpecFloat Numbers.DecimalString.
From stdpp Require Import base option list strings gmap.

Local Open Scope Z_scope.

(** ** Strings *)

Module PyStr.

(** [str.isspace] on the ASCII range: tab, newline, vertical tab, form
    feed, carriage return, the four separators 0x1c-0x1f and space. *)
Definition is_space (c : ascii) : bool :=
  let n := N_of_ascii c in
  ((9 <=? n) && (n <=? 13) || (28 <=? n) && (n <=? 32))%N.

Fixpoint rev_onto (s acc : string) : string :=
  match s with
  | EmptyString => acc
  | String c s' => rev_onto s' (String c acc)
  end.

Definition rev (s : string) : string := rev_onto s EmptyString.

Fixpoint lstrip (s : string) : string :=
  match s with
  | EmptyString => EmptyString
  | String c s' => if is_space c then lstrip s' else s
  end.

Definition rstrip (s : string) : string := rev (lstrip (rev s)).

(** [s.strip()] *)
Definition strip (s : string) : string := rstrip (lstrip s).

(** [s.split()]: the maximal runs of non-whitespace characters.  [cur]
    is the run being read, reversed. *)
Fixpoint split_go (cur s : string) : list string :=
  match s with
  | EmptyString =>
      match cur with EmptyString => [] | _ => [rev cur] end
  | String c s' =>
      if is_space c then
        match cur with
        | EmptyString => split_go EmptyString s'
        | _ => rev cur :: split_go EmptyString s'
        end
      else split_go (String c cur) s'
  end.

Definition split (s : string) : list string := split_go EmptyString s.

(** [s.split(sep)] for a one-character separator: never empty. *)
Fixpoint split_on (sep : ascii) (s : string) : list string :=
  match s with
  | EmptyString => [EmptyString]
  | String c s' =>
      if Ascii.eqb c sep then EmptyString :: split_on sep s'
      else match split_on sep s' with
           | h :: t => String c h :: t
           | [] => [String c EmptyString]
           end
  end.

(** [s.startswith(p)] *)
Fixpoint startswith (p s : string) : bool :=
  match p, s with
  | EmptyString, _ => true
  | String a p', String b s' => Ascii.eqb a b && startswith p' s'
  | String _ _, EmptyString => false
  end.

(** [s.endswith(p)] *)
Definition endswith (p s : string) : bool := startswith (rev p) (rev s).

(** [p in s] *)
Fixpoint contains (p s : string) : bool :=
  startswith p s ||
  match s with
  | EmptyString => false
  | String _ s' => contains p s'
  end.

(** [sep.join(parts)] *)
Fixpoint join (sep : string) (parts : list string) : string :=
  match parts with
  | [] => EmptyString
  | [p] => p
  | p :: rest => p +:+ sep +:+ join sep rest
  end.

End PyStr.

(** ** Integers read from text *)

Module PyInt.

Definition digit_of (c : ascii) : option Z :=
  let n := Z.of_N (N_of_ascii c) in
  if (48 <=? n) && (n <=? 57) then Some (n - 48) else None.

(** The digits of a decimal literal, most significant first: digits with
    single underscores between them.  [prev] tells whether the previous
    character was a digit ([acc] is the value read so far). *)
Fixpoint digits (prev : bool) (acc : Z) (s : string) : option Z :=
  match s with
  | EmptyString => if prev then Some acc else None
  | String c s' =>
      match digit_of c with
      | Some d => digits true (10 * acc + d) s'
      | None =>
          if Ascii.eqb c "_" && prev then digits false acc s' else None
      end
  end.

(** [int(s)] in base 10: surrounding whitespace is dropped, one sign is
    allowed; [None] is [ValueError].  Digits outside ASCII and the
    interpreter's limit on the length of a literal are left out. *)
Definition int (s : string) : option Z :=
  match PyStr.strip s with
  | String "-" r => Z.opp <$> digits false 0 r
  | String "+" r => digits false 0 r
  | r => digits false 0 r
  end.

(** [str(n)] *)
Definition str (n : Z) : string := NilZero.string_of_int (Z.to_int n).

End PyInt.

(** ** Floating point: IEEE binary64 as CPython uses it *)

Module PyFloat.

Definition prec : Z := 53.
Definition emax : Z := 1024.

Definition fdiv := SFdiv prec emax.
Definition fmul := SFmul prec emax.
Definition fsub := SFsub prec emax.

(** An integer as an exact (not yet rounded) binary value. *)
Definition exact (z : Z) : spec_float :=
  match z with
  | Z0 => S754_zero false
  | Zpos p => S754_finite false p 0
  | Zneg p => S754_finite true p 0
  end.

(** The binary64 number nearest to [a / b] (ties to even), [b <> 0]. *)
Definition nearest (a b : Z) : spec_float := fdiv (exact a) (exact b).

(** The least magnitude that rounds to infinity: the midpoint between
    the largest binary64 number and [2^1024]. *)
Definition overflow_bound : Z := 2 ^ 1024 - 2 ^ 970.

(** [a / b] on two [int]s: the correctly rounded quotient;
    [ZeroDivisionError] when [b = 0], [OverflowError] when the rounded
    quotient is not finite. *)
Definition int_truediv (a b : Z) : option spec_float :=
  if b =? 0 then None
  else if overflow_bound * Z.abs b <=? Z.abs a then None
  else Some (nearest a b).

(** The conversion of an [int] operand of a mixed operation. *)
Definition of_int (z : Z) : option spec_float := int_truediv z 1.

(** [x / y] on two [float]s: [ZeroDivisionError] on a zero divisor. *)
Definition truediv (x y : spec_float) : option spec_float :=
  match y with
  | S754_zero _ => None
  | _ => Some (fdiv x y)
  end.

(** [x / n], [n * x] and [n - x] with [n] an [int]. *)
Definition div_int (x : spec_float) (n : Z) : option spec_float :=
  y ← of_int n; truediv x y.
Definition int_mul (n : Z) (x : spec_float) : option spec_float :=
  y ← of_int n; Some (fmul y x).
Definition int_sub (n : Z) (x : spec_float) : option spec_float :=
  y ← of_int n; Some (fsub y x).

(** The literals of the source. *)
Definition lit_0_75 : spec_float := nearest 75 100.
Definition lit_0_9 : spec_float := nearest 9 10.

(** [n / d] rounded to the nearest integer, ties to even
    ([0 <= n], [0 < d]). *)
Definition div_half_even (n d : Z) : Z :=
  let q := n / d in
  match 2 * (n mod d) ?= d with
  | Lt => q
  | Gt => q + 1
  | Eq => if Z.even q then q else q + 1
  end.

(** [round(x, 1)]: the exact binary value is rounded to one decimal
    (ties to even) and that decimal is converted back to binary64; the
    sign is kept, infinities and NaN round to themselves. *)
Definition round1 (x : spec_float) : spec_float :=
  match x with
  | S754_finite s m e =>
      let tenths :=
        if 0 <=? e then Zpos m * 2 ^ e * 10
        else div_half_even (Zpos m * 10) (2 ^ (- e)) in
      match tenths with
      | Zpos k => fdiv (S754_finite s k 0) (exact 10)
      | _ => S754_zero s
      end
  | _ => x
  end.

(** [int(x)]: truncation towards zero; [OverflowError] on an infinity
    and [ValueError] on NaN. *)
Definition to_int (x : spec_float) : option Z :=
  match x with
  | S754_zero _ => Some 0
  | S754_finite s m e =>
      let a := if 0 <=? e then Zpos m * 2 ^ e else Zpos m / 2 ^ (- e) in
      Some (if s then - a else a)
  | _ => None
  end.

(** *** Values and comparisons *)

(** The value of a number that is not NaN. *)
Inductive xval := NegInf | Fin (q : Q) | PosInf.

Definition finite_val (s : bool) (m : positive) (e : Z) : Q :=
  let n := if s then Zneg m else Zpos m in
  if 0 <=? e then Qmake (n * 2 ^ e) 1 else Qmake n (Z.to_pos (2 ^ (- e))).

Definition val (x : spec_float) : option xval :=
  match x with
  | S754_zero _ => Some (Fin 0%Q)
  | S754_infinity s => Some (if s then NegInf else PosInf)
  | S754_nan => None
  | S754_finite s m e => Some (Fin (finite_val s m e))
  end.

Definition xcompare (a b : xval) : comparison :=
  match a, b with
  | NegInf, NegInf => Eq
  | NegInf, _ => Lt
  | _, NegInf => Gt
  | PosInf, PosInf => Eq
  | PosInf, _ => Gt
  | _, PosInf => Lt
  | Fin p, Fin q => Qcompare p q
  end.

(** *** [repr] *)

(** Equality of representations (not of values: the two zeros differ). *)
Definition same (x y : spec_float) : bool :=
  match x, y with
  | S754_zero a, S754_zero b => Bool.eqb a b
  | S754_infinity a, S754_infinity b => Bool.eqb a b
  | S754_nan, S754_nan => true
  | S754_finite a m e, S754_finite b n f =>
      Bool.eqb a b && Pos.eqb m n && (e =? f)
  | _, _ => false
  end.

Definition ndigits10 (z : Z) : Z := Z.of_nat (String.length (PyInt.str z)).

(** [decpt] with [10^(decpt-1) <= num/den < 10^decpt]. *)
Definition decimal_point (num den : Z) : Z :=
  if den <=? num then ndigits10 (num / den) else 1 - ndigits10 (den / num).

(** The decimal [k * 10^(-p)] read back as a binary64 number. *)
Definition strtod (k p : Z) : spec_float :=
  if 0 <=? p then nearest k (10 ^ p) else nearest (k * 10 ^ (- p)) 1.

(** The [n]-digit decimals next to [num/den]: the one nearest to it
    among those that read back as [x], if any.  The result is the
    integer of its digits; its exponent is [decpt - n]. *)
Definition candidate (x : spec_float) (num den decpt n : Z) : option Z :=
  let p := n - decpt in
  let sn := if 0 <=? p then num * 10 ^ p else num in
  let sd := if 0 <=? p then den else den * 10 ^ (- p) in
  let lo := sn / sd in
  let hi := lo + 1 in
  let near := div_half_even sn sd in
  match same (strtod lo p) x, same (strtod hi p) x with
  | true, true => Some near
  | true, false => Some lo
  | false, true => Some hi
  | false, false => None
  end.

Fixpoint shortest (x : spec_float) (num den decpt : Z) (ns : list Z) : Z * Z :=
  match ns with
  | [] => (div_half_even (num * 10 ^ 17) (den * 10 ^ decpt), 17)
  | n :: rest =>
      match candidate x num den decpt n with
      | Some k => (k, n)
      | None => shortest x num den decpt rest
      end
  end.

Fixpoint drop_zeros (s : string) : string :=
  match s with
  | String "0" s' => drop_zeros s'
  | _ => s
  end.

Fixpoint zeros (n : nat) : string :=
  match n with
  | O => EmptyString
  | S n' => String "0" (zeros n')
  end.

Definition take (n : nat) (s : string) : string := String.substring 0 n s.
Definition drop (n : nat) (s : string) : string :=
  String.substring n (String.length s - n) s.

(** The exponent of the scientific notation: a sign and at least two
    digits. *)
Definition exponent (e : Z) : string :=
  let a := PyInt.str (Z.abs e) in
  "e" +:+ (if e <? 0 then "-" else "+") +:+
  (if Z.abs e <? 10 then "0" +:+ a else a).

(** The layout of [float_repr]: [ds] are the significant digits and the
    value is [0.ds * 10^decpt]. *)
Definition layout (ds : string) (decpt : Z) : string :=
  let n := Z.of_nat (String.length ds) in
  if (decpt <=? -4) || (16 <? decpt) then
    take 1 ds +:+ (if 1 <? n then "." +:+ drop 1 ds else "") +:+
    exponent (decpt - 1)
  else if decpt <=? 0 then
    "0." +:+ zeros (Z.to_nat (- decpt)) +:+ ds
  else if n <=? decpt then
    ds +:+ zeros (Z.to_nat (decpt - n)) +:+ ".0"
  else
    take (Z.to_nat decpt) ds +:+ "." +:+ drop (Z.to_nat decpt) ds.

(** [repr(x)], which is also [str(x)] and the text an f-string gives:
    the shortest decimal that reads back as [x]. *)
Definition repr (x : spec_float) : string :=
  match x with
  | S754_nan => "nan"
  | S754_infinity s => if s then "-inf" else "inf"
  | S754_zero s => if s then "-0.0" else "0.0"
  | S754_finite s m e =>
      let num := if 0 <=? e then Zpos m * 2 ^ e else Zpos m in
      let den := if 0 <=? e then 1 else 2 ^ (- e) in
      let decpt := decimal_point num den in
      let '(k, n) :=
        shortest (S754_finite false m e) num den decpt
          [1; 2; 3; 4; 5; 6; 7; 8; 9; 10; 11; 12; 13; 14; 15; 16; 17] in
      let all := PyInt.str k in
      let ds := PyStr.rev (drop_zeros (PyStr.rev all)) in
      (if s then "-" else "") +:+
      layout ds (decpt - n + Z.of_nat (String.length all))
  end.

End PyFloat.

(** ** Numbers that are an [int] or a [float] *)

Module PyNum.

Inductive num := Int (z : Z) | Float (x : spec_float).

Definition val (v : num) : option PyFloat.xval :=
  match v with
  | Int z => Some (PyFloat.Fin (inject_Z z))
  | Float x => PyFloat.val x
  end.

(** The comparisons are made on the exact values, also between an [int]
    and a [float]; every comparison with NaN is false. *)
Definition compare (a b : num) : option comparison :=
  x ← val a; y ← val b; Some (PyFloat.xcompare x y).

Definition ge (a b : num) : bool :=
  match compare a b with Some (Gt | Eq) => true | _ => false end.
Definition gt (a b : num) : bool :=
  match compare a b with Some Gt => true | _ => false end.
Definition le (a b : num) : bool :=
  match compare a b with Some (Lt | Eq) => true | _ => false end.
Definition lt (a b : num) : bool :=
  match compare a b with Some Lt => true | _ => false end.

(** [str(v)], the text an f-string gives for [{v}]. *)
Definition str (v : num) : string :=
  match v with
  | Int z => PyInt.str z
  | Float x => PyFloat.repr x
  end.

End PyNum.

Import PyNum.

(** ** The operating system *)

(** [psutil.virtual_memory()]: byte counts. *)
Record VirtualMemory := {
  vm_total : Z;
  vm_available : Z;
  vm_cached : Z
}.

(** An entry of [/sys/block/]: its name and the content of its two
    accounting files, [None] when [open] fails. *)
Record BlockDev := {
  bd_name : string;
  compr_data_size : option string;
  orig_data_size : option string
}.

(** What one run samples.  [cpu_percent] is the value of
    [psutil.cpu_percent]; [sensors_temp] is the value [get_cpu_temp]
    returns (the first temperature in the output of [sensors], [None]
    when the tool fails or nothing matches); the two [/proc] files are
    lists of lines, [None] when [open] fails; [sys_block] is what
    [os.listdir('/sys/block/')] gives: the entries of the directory, or
    [None] when the call raises (the directory is missing or cannot be
    read). *)
Record Env := {
  cpu_percent : spec_float;
  sensors_temp : option spec_float;
  virtual_memory : VirtualMemory;
  proc_meminfo : option (list string);
  sys_block : option (list BlockDev);
  proc_swaps : option (list string)
}.

(** ** Metric readers *)

Definition get_cpu_usage (env : Env) : spec_float := cpu_percent env.

Definition get_cpu_temp (env : Env) : option spec_float := sensors_temp env.

(** One line of [/proc/meminfo]: [key, value = line.split(':')] and
    [int(value.strip().split()[0])]. *)
Definition meminfo_line (line : string) : option (string * Z) :=
  match PyStr.split_on ":" line with
  | [key; value] =>
      tok ← head (PyStr.split (PyStr.strip value));
      n ← PyInt.int tok;
      Some (PyStr.strip key, n)
  | _ => None
  end.

(** The loop filling the dictionary [meminfo]. *)
Fixpoint read_meminfo (lines : list string) (meminfo : gmap string Z)
  : option (gmap string Z) :=
  match lines with
  | [] => Some meminfo
  | line :: rest =>
      kv ← meminfo_line line;
      read_meminfo rest (<[kv.1 := kv.2]> meminfo)
  end.

(** [meminfo.get(key, 0)] *)
Definition get0 (meminfo : gmap string Z) (key : string) : Z :=
  default 0 (meminfo !! key).

(** The body of the [try] of [get_ram_usage]. *)
Definition meminfo_cached (file : option (list string)) : option Z :=
  lines ← file;
  meminfo ← read_meminfo lines ∅;
  Some (get0 meminfo "Cached" + get0 meminfo "SReclaimable"
        - get0 meminfo "Shmem").

Definition get_ram_usage (env : Env) : Z * Z * Z :=
  let vm := virtual_memory env in
  let cached :=
    match meminfo_cached (proc_meminfo env) with
    | Some c => c
    | None => vm_cached vm / 1024
    end in
  let used_mb := (vm_total vm - vm_available vm) / 1024 ^ 2 in
  let cached_mb := cached / 1024 in
  let total_mb := vm_total vm / 1024 ^ 2 in
  (used_mb, total_mb, cached_mb).

(** [int(f.read())] on an accounting file. *)
Definition read_counter (file : option string) : option Z :=
  content ← file; PyInt.int content.

(** The state of the loop of [get_zram_usage]. *)
Record ZramScan := {
  total_used : Z;
  total_orig : Z;
  found : bool
}.

Definition zram_step (st : ZramScan) (dev : BlockDev) : ZramScan :=
  if negb (PyStr.startswith "zram" (bd_name dev)) then st
  else
    match used ← read_counter (compr_data_size dev);
          orig ← read_counter (orig_data_size dev);
          Some (used, orig) with
    | Some (used, orig) =>
        {| total_used := total_used st + used;
           total_orig := total_orig st + orig;
           found := true |}
    | None =>
        {| total_used := total_used st;
           total_orig := total_orig st;
           found := true |}
    end.

Definition zram_scan (devs : list BlockDev) : ZramScan :=
  fold_left zram_step devs
    {| total_used := 0; total_orig := 0; found := false |}.

(** [int(l.split()[i])] *)
Definition int_field (i : nat) (line : string) : option Z :=
  tok ← PyStr.split line !! i; PyInt.int tok.

Definition sum_Z (l : list Z) : Z := foldr Z.add 0 l.

(** The second [try] of [get_zram_usage]; [None] is both an exception
    (swallowed by [pass]) and a sum that is not positive. *)
Definition zram_from_swaps (file : option (list string)) : option (Z * Z) :=
  all ← file;
  let lines := tail all in
  let zram_lines := filter (λ l, PyStr.contains "zram" l = true) lines in
  used ← mapM (int_field 3) zram_lines;
  total ← mapM (int_field 2) zram_lines;
  let used_kb := sum_Z used in
  let total_kb := sum_Z total in
  if 0 <? total_kb then Some (used_kb, total_kb) else None.

(** The listing of [/sys/block/] is taken outside every [try]: when it
    raises, so does the reader, which is the outer [None]; otherwise the
    reader returns, and the inner option is the value returned. *)
Definition get_zram_usage (env : Env) : option (option (Z * Z)) :=
  devs ← sys_block env;
  let st := zram_scan devs in
  Some (if found st && (0 <? total_orig st) then
          Some (total_used st / 1024, total_orig st / 1024)
        else zram_from_swaps (proc_swaps env)).

(** The loop of [get_swap_usage]; [None] is an exception as well as the
    end of the loop. *)
Fixpoint first_swap (lines : list string) : option (Z * Z) :=
  match lines with
  | [] => None
  | line :: rest =>
      let parts := PyStr.split line in
      p0 ← parts !! 0%nat;
      if PyStr.endswith "swap" p0 || String.eqb p0 "/swapfile"
         || PyStr.contains "/swap/" p0 then
        total ← parts !! 2%nat ≫= PyInt.int;
        used ← parts !! 3%nat ≫= PyInt.int;
        Some (used, total)
      else first_swap rest
  end.

Definition get_swap_usage (env : Env) : option (Z * Z) :=
  all ← proc_swaps env; first_swap (tail all).

(** ** Presentation *)

Definition esc : string := String (ascii_of_nat 27) EmptyString.
Definition red : string := esc +:+ "[31m".
Definition yellow : string := esc +:+ "[33m".
Definition green : string := esc +:+ "[32m".
Definition reset : string := esc +:+ "[0m".

Definition color (val warn crit : num) (minimal : bool) : string :=
  if minimal then str val
  else if ge val crit then red +:+ str val +:+ reset
  else if ge val warn then yellow +:+ str val +:+ reset
  else green +:+ str val +:+ reset.

Definition color_ratio (val : num) (minimal : bool) : string :=
  if minimal then str val
  else if lt val (Int 2) then red +:+ str val +:+ reset
  else if lt val (Int 3) then yellow +:+ str val +:+ reset
  else green +:+ str val +:+ reset.

(** [round(kb / 1024 / 1024, 1)] *)
Definition format_gb (kb : Z) : option spec_float :=
  x ← PyFloat.int_truediv kb 1024;
  y ← PyFloat.div_int x 1024;
  Some (PyFloat.round1 y).

(** ** The orchestrator *)

Record Args := {
  minimal : bool;
  ratio : bool;
  saved : bool;
  no_cpu : bool;
  no_cpu_temp : bool;
  no_ram : bool;
  no_ram_cache : bool;
  no_zram : bool;
  no_swap : bool
}.

Definition icons : gmap string string :=
  <["cpu" := "🧠"]> (<["temp" := "🌡"]> (<["ram" := "💾"]>
    (<["zram" := "📦"]> ∅))).

(** The [lambda] [icon]; [None] is [KeyError]. *)
Definition icon (minimal : bool) (label : string) : option string :=
  if minimal then Some label else icons !! label.

Definition repr := PyFloat.repr.

(** Each block of [main] that may append to [output_parts] is a function
    giving the fragments it appends. *)

Definition cpu_part (a : Args) (cpu : option spec_float) : option (list string) :=
  match cpu with
  | Some c =>
      i ← icon (minimal a) "cpu";
      Some [i +:+ " " +:+ color (Float c) (Int 70) (Int 90) (minimal a) +:+ "%"]
  | None => Some []
  end.

Definition temp_part (a : Args) (temp : option spec_float) : option (list string) :=
  match temp with
  | Some t =>
      i ← icon (minimal a) "temp";
      n ← PyFloat.to_int t;
      Some [i +:+ " " +:+ color (Int n) (Int 70) (Int 85) (minimal a) +:+ "°C"]
  | None => Some []
  end.

Definition ram_part (a : Args) (ram : option (Z * Z * Z)) : option (list string) :=
  match ram with
  | Some (used_ram, total_ram, cached_ram) =>
      used_gb ← PyFloat.round1 <$> PyFloat.int_truediv used_ram 1024;
      total_gb ← PyFloat.round1 <$> PyFloat.int_truediv total_ram 1024;
      cached_gb ← PyFloat.round1 <$> PyFloat.int_truediv cached_ram 1024;
      let ram_str :=
        color (Float used_gb)
          (Float (PyFloat.fmul total_gb PyFloat.lit_0_75))
          (Float (PyFloat.fmul total_gb PyFloat.lit_0_9)) (minimal a)
        +:+ "/" +:+ repr total_gb +:+ "GB" in
      let ram_str :=
        if negb (no_ram_cache a)
        then ram_str +:+ " (cache " +:+ repr cached_gb +:+ "GB)"
        else ram_str in
      i ← icon (minimal a) "ram";
      Some [i +:+ " " +:+ ram_str]
  | None => Some []
  end.

(** The text [zram_str] of a zram reading. *)
Definition zram_text (a : Args) (z_used_kb z_total_kb : Z) : option string :=
  z_used_gb ← format_gb z_used_kb;
  z_total_gb ← format_gb z_total_kb;
  let zram_str := repr z_used_gb +:+ "/" +:+ repr z_total_gb +:+ "GB" in
  zram_str ←
    (if ratio a && (0 <? z_used_kb) then
       q ← PyFloat.int_truediv z_total_kb z_used_kb;
       let ratio_val := PyFloat.round1 q in
       let ratio_str := color_ratio (Float ratio_val) (minimal a) in
       Some (zram_str +:+ " (" +:+ ratio_str +:+ ":1)")
     else Some zram_str);
  if saved a && (0 <? z_used_kb) then
    q ← PyFloat.int_truediv z_used_kb z_total_kb;
    d ← PyFloat.int_sub 1 q;
    saved_val ← PyFloat.int_mul 100 d;
    Some (zram_str +:+ " Saved " +:+ repr (PyFloat.round1 saved_val) +:+ "%")
  else Some zram_str.

Definition zram_part (a : Args) (zram : option (Z * Z)) : option (list string) :=
  match zram with
  | Some (z_used_kb, z_total_kb) =>
      zram_str ← zram_text a z_used_kb z_total_kb;
      i ← icon (minimal a) "zram";
      Some [i +:+ " " +:+ zram_str]
  | None =>
      if negb (no_zram a) then
        i ← icon (minimal a) "zram";
        Some [i +:+ " -"]
      else Some []
  end.

(** The text [swap_str] of a swap reading. *)
Definition swap_text (a : Args) (used_kb total_kb : Z) : option string :=
  used_gb ← format_gb used_kb;
  total_gb ← format_gb total_kb;
  let swap_str := repr used_gb +:+ "/" +:+ repr total_gb +:+ "GB" in
  Some (if 0 <? used_kb then
          if negb (minimal a) then red +:+ swap_str +:+ reset else swap_str
        else swap_str).

Definition swap_part (a : Args) (swap : option (Z * Z)) : option (list string) :=
  match swap with
  | Some (used_kb, total_kb) =>
      swap_str ← swap_text a used_kb total_kb;
      Some [(if negb (minimal a) then "💽" else "SWP") +:+ " " +:+ swap_str]
  | None => Some []
  end.

(** The readings of a run: a disabled metric is [None].  The zram reader
    can raise, so its reading has the outer [None] of [get_zram_usage]. *)
Definition cpu_reading (a : Args) (env : Env) : option spec_float :=
  if negb (no_cpu a) then Some (get_cpu_usage env) else None.
Definition temp_reading (a : Args) (env : Env) : option spec_float :=
  if negb (no_cpu_temp a) then get_cpu_temp env else None.
Definition swap_reading (a : Args) (env : Env) : option (Z * Z) :=
  if negb (no_swap a) then get_swap_usage env else None.
Definition ram_reading (a : Args) (env : Env) : option (Z * Z * Z) :=
  if negb (no_ram a) then Some (get_ram_usage env) else None.
Definition zram_reading (a : Args) (env : Env) : option (option (Z * Z)) :=
  if negb (no_zram a) then get_zram_usage env else Some None.

(** The list [output_parts] at the end of [main]: the readers are called
    first, then the blocks run in order. *)
Definition output_parts (a : Args) (env : Env) : option (list string) :=
  zram ← zram_reading a env;
  p_cpu ← cpu_part a (cpu_reading a env);
  p_temp ← temp_part a (temp_reading a env);
  p_ram ← ram_part a (ram_reading a env);
  p_zram ← zram_part a zram;
  p_swap ← swap_part a (swap_reading a env);
  Some (p_cpu ++ p_temp ++ p_ram ++ p_zram ++ p_swap).

(** What [main] writes to the standard output; [None] when it ends with
    an uncaught exception. *)
Definition main (a : Args) (env : Env) : option string :=
  parts ← output_parts a env;
  Some (PyStr.join " " parts +:+ String (ascii_of_nat 10) EmptyString).

(** ** The primary path of the zram reader, in the words of the specification

    The block devices whose name has the prefix "zram", and the sums of
    the two counters over those of them whose accounting files are both
    read.  [zram_scan] is compared with these below. *)

Definition is_zram (dev : BlockDev) : bool :=
  PyStr.startswith "zram" (bd_name dev).

Definition counters (dev : BlockDev) : option (Z * Z) :=
  used ← read_counter (compr_data_size dev);
  orig ← read_counter (orig_data_size dev);
  Some (used, orig).

Definition spec_zram_present (devs : list BlockDev) : bool :=
  existsb is_zram devs.

Definition spec_zram_counters (devs : list BlockDev) : list (Z * Z) :=
  omap counters (filter (λ d, is_zram d = true) devs).

Definition spec_compressed_bytes (devs : list BlockDev) : Z :=
  sum_Z (fst <$> spec_zram_counters devs).

Definition spec_original_bytes (devs : list BlockDev) : Z :=
  sum_Z (snd <$> spec_zram_counters devs).

(** ** The characters of a text *)

(** [c in s] for a character [c]. *)
Fixpoint has_char (c : ascii) (s : string) : bool :=
  match s with
  | EmptyString => false
  | String a s' => Ascii.eqb c a || has_char c s'
  end.

(** All the characters of [s] are in the class [P]. *)
Fixpoint all_chars (P : ascii → bool) (s : string) : bool :=
  match s with
  | EmptyString => true
  | String a s' => P a && all_chars P s'
  end.

(** The characters [repr] of a float is made of. *)
Definition float_char (c : ascii) : bool := has_char c "0123456789.-+einfa".

(** The magnitudes the float operations of [main] take without
    overflow. *)
Definition in_float_range (n : Z) : Prop := Z.abs n < PyFloat.overflow_bound.

(** The number of fragments a reading should contribute: one when the
    metric was read, none when it is absent. *)
Definition shown {A : Type} (reading : option A) : nat :=
  match reading with
  | Some _ => 1
  | None => 0
  end.

(** ** Sample machines and command lines *)

Definition nl : string := String (ascii_of_nat 10) EmptyString.
Definition tab : string := String (ascii_of_nat 9) EmptyString.

(** No option given, and all five metrics hidden. *)
Definition args_default : Args := {|
  minimal := false; ratio := false; saved := false;
  no_cpu := false; no_cpu_temp := false; no_ram := false;
  no_ram_cache := false; no_zram := false; no_swap := false
|}.

Definition args_all_hidden : Args := {|
  minimal := false; ratio := true; saved := true;
  no_cpu := true; no_cpu_temp := true; no_ram := true;
  no_ram_cache := false; no_zram := true; no_swap := true
|}.

Definition vm_16g : VirtualMemory :=
  {| vm_total := 16777216 * 1024;
     vm_available := 8388608 * 1024;
     vm_cached := 3 * 1024 ^ 3 |}.

(** A machine with 16 GiB of memory, half of it available, whose
    [/proc/meminfo] cannot be read. *)
Definition env_no_meminfo : Env := {|
  cpu_percent := PyFloat.nearest 123 10;
  sensors_temp := None;
  virtual_memory := vm_16g;
  proc_meminfo := None;
  sys_block := Some [];
  proc_swaps := None
|}.

(** The same machine with a meminfo whose shared memory exceeds the page
    cache and the reclaimable slab together. *)
Definition env_shmem : Env := {|
  cpu_percent := PyFloat.nearest 123 10;
  sensors_temp := None;
  virtual_memory := vm_16g;
  proc_meminfo :=
    Some [ "MemTotal:       16777216 kB" +:+ nl;
           "Cached:           204800 kB" +:+ nl;
           "Shmem:           4300800 kB" +:+ nl;
           "SReclaimable:     102400 kB" +:+ nl ];
  sys_block := Some [];
  proc_swaps := None
|}.

(** The header of [/proc/swaps] and two of its entries. *)
Definition swaps_header : string :=
  "Filename" +:+ tab +:+ tab +:+ tab +:+ tab +:+ "Type" +:+ tab +:+ tab
  +:+ "Size" +:+ tab +:+ tab +:+ "Used" +:+ tab +:+ tab +:+ "Priority" +:+ nl.

Definition swaps_zram0 : string :=
  "/dev/zram0                              partition" +:+ tab
  +:+ "4194300" +:+ tab +:+ tab +:+ "0" +:+ tab +:+ tab +:+ "100" +:+ nl.

Definition swaps_swapfile : string :=
  "/swapfile                               file" +:+ tab +:+ tab
  +:+ "2097148" +:+ tab +:+ tab +:+ "1024000" +:+ tab +:+ tab +:+ "-2" +:+ nl.

(** A zram device that holds no data yet, listed among the swap areas. *)
Definition env_zram_idle : Env := {|
  cpu_percent := PyFloat.nearest 123 10;
  sensors_temp := None;
  virtual_memory := vm_16g;
  proc_meminfo := None;
  sys_block := Some
    [ {| bd_name := "sda"; compr_data_size := None; orig_data_size := None |};
      {| bd_name := "zram0";
         compr_data_size := Some ("0" +:+ nl);
         orig_data_size := Some ("0" +:+ nl) |} ];
  proc_swaps := Some [swaps_header; swaps_zram0]
|}.

(** The same block devices with an unreadable [/proc/swaps]. *)
Definition env_zram_idle_no_swaps : Env := {|
  cpu_percent := PyFloat.nearest 123 10;
  sensors_temp := None;
  virtual_memory := vm_16g;
  proc_meminfo := None;
  sys_block := sys_block env_zram_idle;
  proc_swaps := None
|}.

(** Two zram devices holding 100 MB and 50 MB of compressed data for
    400 MB and 200 MB of original data, and a swap file in use. *)
Definition env_two_zram : Env := {|
  cpu_percent := PyFloat.nearest 123 10;
  sensors_temp := Some (PyFloat.nearest 455 10);
  virtual_memory := vm_16g;
  proc_meminfo := None;
  sys_block := Some
    [ {| bd_name := "sda"; compr_data_size := None; orig_data_size := None |};
      {| bd_name := "zram0";
         compr_data_size := Some ("104857600" +:+ nl);
         orig_data_size := Some ("419430400" +:+ nl) |};
      {| bd_name := "zram1";
         compr_data_size := Some ("52428800" +:+ nl);
         orig_data_size := Some ("209715200" +:+ nl) |} ];
  proc_swaps := Some [swaps_header; swaps_zram0; swaps_swapfile]
|}.

(** A zram device whose original data is below one kilobyte. *)
Definition env_zram_tiny : Env := {|
  cpu_percent := PyFloat.nearest 123 10;
  sensors_temp := None;
  virtual_memory := vm_16g;
  proc_meminfo := None;
  sys_block := Some
    [ {| bd_name := "zram0";
         compr_data_size := Some ("2048" +:+ nl);
         orig_data_size := Some ("512" +:+ nl) |} ];
  proc_swaps := None
|}.

Definition args_saved : Args := {|
  minimal := false; ratio := false; saved := true;
  no_cpu := false; no_cpu_temp := false; no_ram := false;
  no_ram_cache := false; no_zram := false; no_swap := false
|}.

Definition args_full : Args := {|
  minimal := false; ratio := true; saved := true;
  no_cpu := false; no_cpu_temp := false; no_ram := false;
  no_ram_cache := false; no_zram := false; no_swap := false
|}.

Definition args_full_minimal : Args := {|
  minimal := true; ratio := true; saved := true;
  no_cpu := false; no_cpu_temp := false; no_ram := false;
  no_ram_cache := false; no_zram := false; no_swap := false
|}.

(** ** The temperature reader on the text of [sensors]

    The body of [get_cpu_temp] on the output of the tool ([None] when
    [check_output] or [decode] raises): the first match of

      (Tctl|Tdie|Package id \d+|Core \d+|temp\d+):\s+\+?([\d.]+)°C

    and [float] of its second group.  At a given position at most one
    alternative fits, and each greedy run is followed by a character
    outside its class, so the longest runs decide the match.  [\d] and
    [\s] are taken on the ASCII range. *)

Definition is_digit (c : ascii) : bool :=
  match PyInt.digit_of c with Some _ => true | None => false end.

Definition is_num_char (c : ascii) : bool := is_digit c || Ascii.eqb c ".".

Fixpoint span (P : ascii → bool) (s : string) : string * string :=
  match s with
  | EmptyString => (EmptyString, EmptyString)
  | String c s' =>
      if P c then let '(a, b) := span P s' in (String c a, b)
      else (EmptyString, s)
  end.

Fixpoint after (p s : string) : option string :=
  match p, s with
  | EmptyString, _ => Some s
  | String a p', String b s' => if Ascii.eqb a b then after p' s' else None
  | String _ _, EmptyString => None
  end.

Definition after_run (P : ascii → bool) (s : string) : option string :=
  match span P s with
  | (EmptyString, _) => None
  | (_, r) => Some r
  end.

Definition or_else {A} (x y : option A) : option A :=
  match x with Some _ => x | None => y end.

Definition sensor_label (s : string) : option string :=
  or_else (after "Tctl" s)
  (or_else (after "Tdie" s)
  (or_else (after "Package id " s ≫= after_run is_digit)
  (or_else (after "Core " s ≫= after_run is_digit)
           (after "temp" s ≫= after_run is_digit)))).

Definition sensor_match (s : string) : option string :=
  r ← sensor_label s;
  r ← after ":" r;
  r ← after_run PyStr.is_space r;
  let r := match r with String "+" r' => r' | _ => r end in
  match span is_num_char r with
  | (EmptyString, _) => None
  | (num, r) => if PyStr.startswith "°C" r then Some num else None
  end.

Fixpoint sensor_search (s : string) : option string :=
  match sensor_match s with
  | Some g => Some g
  | None =>
      match s with
      | EmptyString => None
      | String _ s' => sensor_search s'
      end
  end.

Fixpoint decimal_value (acc : Z) (s : string) : Z :=
  match s with
  | EmptyString => acc
  | String c s' => decimal_value (10 * acc + default 0 (PyInt.digit_of c)) s'
  end.

Definition float_of_decimal (g : string) : option spec_float :=
  let '(ip, r) := span is_digit g in
  match r with
  | EmptyString =>
      match ip with
      | EmptyString => None
      | _ => Some (PyFloat.nearest (decimal_value 0 ip) 1)
      end
  | String "." fp =>
      let '(fd, r') := span is_digit fp in
      match r', (ip +:+ fd) with
      | EmptyString, String _ _ =>
          Some (PyFloat.nearest (decimal_value 0 (ip +:+ fd))
                  (10 ^ Z.of_nat (String.length fd)))
      | _, _ => None
      end
  | _ => None
  end.

Definition cpu_temp_of (output : option string) : option spec_float :=
  out ← output; g ← sensor_search out; float_of_decimal g.

(** ** The heuristic of the swap reader *)

(** The test of [get_swap_usage] on the first field of a line. *)
Definition is_disk_swap (p0 : string) : bool :=
  PyStr.endswith "swap" p0 || String.eqb p0 "/swapfile"
  || PyStr.contains "/swap/" p0.

(** ** The characters of a line in minimal mode *)

(** The characters of a float, of the labels, units and punctuation of
    the fragments, the two bytes of the degree sign and the newline. *)
Definition plain_char (c : ascii) : bool :=
  float_char c || has_char c "cputemrazSWPGBCd(hv):/% °"
  || Ascii.eqb c (ascii_of_nat 10).

(** ** Further sample machines *)

Definition dev_sda : BlockDev :=
  {| bd_name := "sda"; compr_data_size := None; orig_data_size := None |}.

Definition dev_zram0 : BlockDev :=
  {| bd_name := "zram0";
     compr_data_size := Some ("104857600" +:+ nl);
     orig_data_size := Some ("419430400" +:+ nl) |}.

Definition dev_zram1 : BlockDev :=
  {| bd_name := "zram1";
     compr_data_size := Some ("52428800" +:+ nl);
     orig_data_size := Some ("209715200" +:+ nl) |}.

(** A zram device whose accounting files are missing. *)
Definition dev_zram2 : BlockDev :=
  {| bd_name := "zram2"; compr_data_size := None; orig_data_size := None |}.

(** [env] with another listing of [/sys/block/]. *)
Definition with_sys_block (env : Env) (devs : option (list BlockDev)) : Env := {|
  cpu_percent := cpu_percent env;
  sensors_temp := sensors_temp env;
  virtual_memory := virtual_memory env;
  proc_meminfo := proc_meminfo env;
  sys_block := devs;
  proc_swaps := proc_swaps env
|}.

(** [env] with another content of [/proc/swaps]. *)
Definition with_proc_swaps (env : Env) (file : option (list string)) : Env := {|
  cpu_percent := cpu_percent env;
  sensors_temp := sensors_temp env;
  virtual_memory := virtual_memory env;
  proc_meminfo := proc_meminfo env;
  sys_block := sys_block env;
  proc_swaps := file
|}.

(** [env] with another content of [/proc/meminfo]. *)
Definition with_proc_meminfo (env : Env) (file : option (list string)) : Env := {|
  cpu_percent := cpu_percent env;
  sensors_temp := sensors_temp env;
  virtual_memory := virtual_memory env;
  proc_meminfo := file;
  sys_block := sys_block env;
  proc_swaps := proc_swaps env
|}.

(** A zram entry of [/proc/swaps] whose used size is not a number. *)
Definition swaps_zram_bad : string :=
  "/dev/zram1                              partition" +:+ tab
  +:+ "4194300" +:+ tab +:+ tab +:+ "n/a" +:+ tab +:+ tab +:+ "100" +:+ nl.

(** A meminfo with a line that has no colon, and one that gives
    [Cached] twice. *)
Definition meminfo_garbled : list string :=
  [ "MemTotal:       16777216 kB" +:+ nl;
    "Cached:           204800 kB" +:+ nl;
    "(truncated)" +:+ nl ].

Definition meminfo_twice : list string :=
  [ "Cached:           204800 kB" +:+ nl;
    "Shmem:              1024 kB" +:+ nl;
    "Cached:           409600 kB" +:+ nl;
    "SReclaimable:     102400 kB" +:+ nl ].

(** ** The entries the swap reader passes over *)

(** The entries in front of the one that decides: each has a first
    field, and it does not look like a disk swap. *)
Definition passed_over (pre : list string) : Prop :=
  Forall (λ l, ∃ q, PyStr.split l !! 0%nat = Some q ∧ is_disk_swap q = false)
    pre.

(** [env] with another temperature reading. *)
Definition with_sensors_temp (env : Env) (temp : option spec_float) : Env := {|
  cpu_percent := cpu_percent env;
  sensors_temp := temp;
  virtual_memory := virtual_memory env;
  proc_meminfo := proc_meminfo env;
  sys_block := sys_block env;
  proc_swaps := proc_swaps env
|}.

(** The fragments of minimal mode are made of plain characters. *)
Definition plain_parts (l : list string) : Prop :=
  Forall (λ p, all_chars plain_char p = true) l.

(** ** The readings the temperature pattern is written for *)

(** A run of one or more characters of the class [P]. *)
Definition run_of (P : ascii → bool) (s : string) : Prop :=
  s ≠ EmptyString ∧ all_chars P s = true.

(** The names of the pattern: [Tctl], [Tdie], and [Package id], [Core]
    and [temp] followed by a number. *)
Inductive sensor_name : string → Prop :=
  | name_Tctl : sensor_name "Tctl"
  | name_Tdie : sensor_name "Tdie"
  | name_package ds : run_of is_digit ds → sensor_name ("Package id " +:+ ds)
  | name_core ds : run_of is_digit ds → sensor_name ("Core " +:+ ds)
  | name_temp ds : run_of is_digit ds → sensor_name ("temp" +:+ ds).

(** The text does not go on with a character of the class [P]. *)
Definition head_outside (P : ascii → bool) (s : string) : bool :=
  match s with
  | EmptyString => true
  | String c _ => negb (P c)
  end.

(** No match of the pattern starts inside [pre] when [s] follows it. *)
Fixpoint no_match_before (pre s : string) : bool :=
  match pre with
  | EmptyString => true
  | String c pre' =>
      match sensor_match (pre +:+ s) with
      | Some _ => false
      | None => no_match_before pre' s
      end
  end.

(** The output of [sensors] on a machine with one AMD sensor. *)
Definition sensors_k10temp : string :=
  "k10temp-pci-00c3" +:+ nl +:+ "Adapter: PCI adapter" +:+ nl
  +:+ "Tctl:         +45.5°C  " +:+ nl +:+ "Tdie:         +40.0°C  " +:+ nl.

(** ** The characters of a line in any mode *)

(** The characters of the glyphs, labels, units, punctuation and colour
    markers the fragments are built from, next to those of the numbers. *)
Definition fragment_alphabet : string :=
  "🧠🌡💾📦💽cputemrazSWPGBCd(hv):/% °-" +:+ red +:+ yellow +:+ green +:+ reset.

Definition fragment_char (c : ascii) : bool :=
  float_char c || has_char c fragment_alphabet.

(** The default options with [--ratio]. *)
Definition args_ratio : Args := {|
  minimal := false; ratio := true; saved := false;
  no_cpu := false; no_cpu_temp := false; no_ram := false;
  no_ram_cache := false; no_zram := false; no_swap := false
|}.

(** * Properties *)

(** ** The number model on known values *)

(** Values CPython prints: a quotient with a long expansion, the three
    kinds of tie of [round(x, 1)] (1.15 and 1.35 are not exactly
    representable, 0.25 is and goes to the even digit), a negative zero,
    and the two notations of [repr]. *)
Example repr_third :
  PyFloat.repr <$> PyFloat.int_truediv 1 3 = Some "0.3333333333333333".
Proof. vm_compute. reflexivity. Qed.

Example round1_ties :
  PyFloat.repr ∘ PyFloat.round1 <$> PyFloat.int_truediv 23 20 = Some "1.1" ∧
  PyFloat.repr ∘ PyFloat.round1 <$> PyFloat.int_truediv 27 20 = Some "1.4" ∧
  PyFloat.repr ∘ PyFloat.round1 <$> PyFloat.int_truediv 1 4 = Some "0.2" ∧
  PyFloat.repr ∘ PyFloat.round1 <$> PyFloat.int_truediv (-1) 50 = Some "-0.0".
Proof. vm_compute. done. Qed.

Example repr_notations :
  PyFloat.repr <$> PyFloat.int_truediv (10 ^ 15) 1 = Some "1000000000000000.0" ∧
  PyFloat.repr <$> PyFloat.int_truediv (10 ^ 16) 1 = Some "1e+16" ∧
  PyFloat.repr <$> PyFloat.int_truediv 1 (10 ^ 4) = Some "0.0001" ∧
  PyFloat.repr <$> PyFloat.int_truediv 1 (10 ^ 5) = Some "1e-05".
Proof. vm_compute. done. Qed.

(** [overflow_bound] is where the rounded quotient stops being finite. *)
Example overflow_edge :
  PyFloat.nearest PyFloat.overflow_bound 1 = S754_infinity false ∧
  PyFloat.nearest (PyFloat.overflow_bound - 1) 1
    = S754_finite false 9007199254740991 971.
Proof. vm_compute. done. Qed.

(** The integer [div_half_even] gives is a nearest one: [round1] moves a
    value by at most half a tenth before the decimal is read back. *)
Lemma div_half_even_nearest (n d : Z) :
  0 < d → 2 * Z.abs (n - d * PyFloat.div_half_even n d) <= d.
Proof.
  intros Hd. unfold PyFloat.div_half_even.
  pose proof (Z.div_mod n d ltac:(lia)) as Hdm.
  pose proof (Z.mod_pos_bound n d Hd) as Hr.
  destruct (Z.compare_spec (2 * (n mod d)) d) as [Heq|Hlt|Hgt];
    [destruct (Z.even (n / d))|..]; nia.
Qed.

(** ** The order on numbers *)

Section Order.

Import PyFloat.

Lemma xcompare_lt_le_trans (x y z : xval) :
  xcompare x y = Lt → xcompare y z ≠ Gt → xcompare x z = Lt.
Proof.
  destruct x as [|p|], y as [|q|], z as [|r|]; simpl; try congruence.
  intros Hpq Hqr. apply Qlt_alt. apply Qlt_alt in Hpq.
  apply Qle_alt in Hqr. eapply Qlt_le_trans; eassumption.
Qed.

Lemma lt_le_not_ge (v w c : num) :
  lt v w = true → le w c = true → ge v c = false ∧ ge v w = false.
Proof.
  unfold lt, le, ge, PyNum.compare.
  destruct (PyNum.val v) as [x|], (PyNum.val w) as [y|],
    (PyNum.val c) as [z|];
    simpl; try discriminate.
  intros Hxy Hyz.
  assert (Hlt : xcompare x y = Lt) by (destruct (xcompare x y); congruence).
  assert (Hle : xcompare y z ≠ Gt) by (destruct (xcompare y z); congruence).
  rewrite (xcompare_lt_le_trans x y z Hlt Hle), Hlt. done.
Qed.

Lemma lt_not_ge (v c : num) : lt v c = true → ge v c = false.
Proof.
  unfold lt, ge. destruct (PyNum.compare v c) as [[]|]; congruence.
Qed.

End Order.

(** ** The RAM reader *)

(** C8: with [0 <= available <= total] bytes reported by the system, the
    RAM reader returns [used <= total]. *)
Theorem ram_used_le_total (env : Env) :
  0 <= vm_available (virtual_memory env) <= vm_total (virtual_memory env) →
  (get_ram_usage env).1.1 <= (get_ram_usage env).1.2.
Proof.
  intros [Hlo Hhi]. unfold get_ram_usage. simpl.
  apply Z.div_le_mono; lia.
Qed.

Lemma ram_used_le_total_witness :
  (get_ram_usage env_no_meminfo).1.1 <= (get_ram_usage env_no_meminfo).1.2.
Proof.
  apply (ram_used_le_total env_no_meminfo). simpl. lia.
Defined.

(** The scenario of the specification: 16777216 KB in total, 8388608 KB
    available and no readable meminfo give 8192 MB used of 16384 MB, the
    cache coming from the fallback statistic. *)
Example ram_scenario : get_ram_usage env_no_meminfo = (8192, 16384, 3072).
Proof. reflexivity. Qed.

(** C1, as the code has it: the cached component is not clamped.  When
    the meminfo file is read, it is the floor of
    [(Cached + SReclaimable - Shmem) / 1024] and is non-negative exactly
    when [Shmem <= Cached + SReclaimable]; when the file cannot be read or
    parsed, it comes from the cached statistic of psutil and is
    non-negative exactly when that statistic is. *)
Theorem ram_cached_sign (env : Env) :
  (∀ lines (m : gmap string Z),
      proc_meminfo env = Some lines → read_meminfo lines ∅ = Some m →
      (get_ram_usage env).2 =
        (get0 m "Cached" + get0 m "SReclaimable" - get0 m "Shmem") / 1024 ∧
      (0 <= (get_ram_usage env).2 ↔
       get0 m "Shmem" <= get0 m "Cached" + get0 m "SReclaimable")) ∧
  (meminfo_cached (proc_meminfo env) = None →
      (get_ram_usage env).2 = vm_cached (virtual_memory env) / 1024 / 1024 ∧
      (0 <= (get_ram_usage env).2 ↔ 0 <= vm_cached (virtual_memory env))).
Proof.
  split.
  - intros lines m Hfile Hread. unfold get_ram_usage, meminfo_cached.
    rewrite Hfile. simpl. rewrite Hread. simpl. split; [done|].
    split; intros H; Z.div_mod_to_equations; lia.
  - intros Hnone. unfold get_ram_usage. rewrite Hnone. simpl.
    split; [done|]. split; intros H; Z.div_mod_to_equations; lia.
Qed.

Lemma ram_cached_sign_witness :
  (0 <= (get_ram_usage env_shmem).2 ↔ 4300800 <= 204800 + 102400) ∧
  (0 <= (get_ram_usage env_no_meminfo).2 ↔ 0 <= 3 * 1024 ^ 3).
Proof.
  split.
  - refine (proj2 (proj1 (ram_cached_sign env_shmem) _
      (<["SReclaimable" := 102400]> (<["Shmem" := 4300800]>
         (<["Cached" := 204800]> (<["MemTotal" := 16777216]> ∅))))
      eq_refl _)).
    vm_compute. reflexivity.
  - refine (proj2 (proj2 (ram_cached_sign env_no_meminfo) _)). reflexivity.
Defined.

(** C1 as stated fails: with [Shmem] above [Cached + SReclaimable] the
    reader returns a negative cached component. *)
Lemma ram_cached_negative :
  get_ram_usage env_shmem = (8192, 16384, -3900) ∧
  ¬ (∀ env, 0 <= (get_ram_usage env).2).
Proof.
  assert (H : get_ram_usage env_shmem = (8192, 16384, -3900))
    by (vm_compute; reflexivity).
  split; [exact H|].
  intros Hall. specialize (Hall env_shmem). rewrite H in Hall.
  simpl in Hall. lia.
Qed.

(** ** The threshold colouring *)

(** C7: for ascending thresholds, a value below [warn] gets the ok
    marker, one from [warn] up to [crit] the warning marker and one from
    [crit] on the critical marker; in minimal mode the result is the bare
    text of the value. *)
Theorem color_thresholds (v warn crit : num) :
  le warn crit = true →
  color v warn crit true = str v ∧
  (lt v warn = true →
     color v warn crit false = green +:+ str v +:+ reset) ∧
  (ge v warn = true → lt v crit = true →
     color v warn crit false = yellow +:+ str v +:+ reset) ∧
  (ge v crit = true →
     color v warn crit false = red +:+ str v +:+ reset).
Proof.
  intros Hasc. unfold color. simpl. repeat split.
  - intros Hlt. destruct (lt_le_not_ge v warn crit Hlt Hasc) as [-> ->]. done.
  - intros Hge Hlt. rewrite (lt_not_ge v crit Hlt), Hge. done.
  - intros ->. done.
Qed.

Lemma color_thresholds_witness :
  color (Int 45) (Int 70) (Int 85) false = green +:+ "45" +:+ reset ∧
  color (Float (PyFloat.nearest 755 10)) (Int 70) (Int 90) false
    = yellow +:+ "75.5" +:+ reset ∧
  color (Int 85) (Int 70) (Int 85) false = red +:+ "85" +:+ reset ∧
  color (Float (PyFloat.nearest 755 10)) (Int 70) (Int 90) true = "75.5".
Proof.
  split; [|split; [|split]].
  - exact (proj1 (proj2 (color_thresholds (Int 45) (Int 70) (Int 85) eq_refl))
             eq_refl).
  - exact (proj1 (proj2 (proj2
             (color_thresholds (Float (PyFloat.nearest 755 10)) (Int 70)
                (Int 90) eq_refl))) eq_refl eq_refl).
  - exact (proj2 (proj2 (proj2
             (color_thresholds (Int 85) (Int 70) (Int 85) eq_refl))) eq_refl).
  - exact (proj1 (color_thresholds (Float (PyFloat.nearest 755 10)) (Int 70)
                    (Int 90) eq_refl)).
Defined.

(** ** The orchestrator *)

(** C9: with the five metrics disabled the output is one empty line,
    whatever the other options and the machine. *)
Theorem all_disabled_empty_line (a : Args) (env : Env) :
  no_cpu a = true → no_cpu_temp a = true → no_ram a = true →
  no_zram a = true → no_swap a = true →
  main a env = Some nl.
Proof.
  intros Hcpu Htemp Hram Hzram Hswap.
  unfold main, output_parts, cpu_reading, temp_reading, ram_reading,
    zram_reading, swap_reading, zram_part.
  rewrite Hcpu, Htemp, Hram, Hzram, Hswap. reflexivity.
Qed.

Lemma all_disabled_empty_line_witness :
  main args_all_hidden env_shmem = Some nl.
Proof.
  apply (all_disabled_empty_line args_all_hidden env_shmem); reflexivity.
Defined.

(** ** The zram reader *)

Lemma zram_step_counters (st : ZramScan) (dev : BlockDev) :
  zram_step st dev =
    if is_zram dev then
      {| total_used := total_used st + default 0 (fst <$> counters dev);
         total_orig := total_orig st + default 0 (snd <$> counters dev);
         found := true |}
    else st.
Proof.
  unfold zram_step, is_zram, counters.
  destruct (PyStr.startswith "zram" (bd_name dev)); simpl; [|done].
  destruct (read_counter (compr_data_size dev)) as [u|]; simpl;
    [destruct (read_counter (orig_data_size dev)) as [o|]; simpl|];
    f_equal; lia.
Qed.

Lemma spec_zram_counters_cons (dev : BlockDev) (devs : list BlockDev) :
  spec_zram_counters (dev :: devs) =
    if is_zram dev then
      match counters dev with
      | Some p => p :: spec_zram_counters devs
      | None => spec_zram_counters devs
      end
    else spec_zram_counters devs.
Proof.
  unfold spec_zram_counters. rewrite filter_cons.
  destruct (is_zram dev) eqn:Hz.
  - rewrite decide_True by done. simpl. by destruct (counters dev).
  - rewrite decide_False by congruence. done.
Qed.

Lemma spec_bytes_cons (dev : BlockDev) (devs : list BlockDev) :
  spec_compressed_bytes (dev :: devs) =
    (if is_zram dev then default 0 (fst <$> counters dev) else 0)
    + spec_compressed_bytes devs ∧
  spec_original_bytes (dev :: devs) =
    (if is_zram dev then default 0 (snd <$> counters dev) else 0)
    + spec_original_bytes devs.
Proof.
  unfold spec_compressed_bytes, spec_original_bytes.
  rewrite spec_zram_counters_cons.
  destruct (is_zram dev); [|done].
  destruct (counters dev) as [[u o]|]; done.
Qed.

(** The loop computes the sums and the flag of the specification. *)
Lemma zram_scan_from (devs : list BlockDev) (st : ZramScan) :
  fold_left zram_step devs st =
    {| total_used := total_used st + spec_compressed_bytes devs;
       total_orig := total_orig st + spec_original_bytes devs;
       found := found st || spec_zram_present devs |}.
Proof.
  revert st. induction devs as [|dev devs IH]; intros st.
  - destruct st as [u o f]. simpl.
    unfold spec_compressed_bytes, spec_original_bytes. simpl.
    rewrite !Z.add_0_r, orb_false_r. done.
  - simpl fold_left. rewrite IH, zram_step_counters.
    destruct (spec_bytes_cons dev devs) as [-> ->].
    unfold spec_zram_present. simpl existsb.
    destruct (is_zram dev); simpl.
    + rewrite orb_true_r. f_equal; lia.
    + f_equal; lia.
Qed.

Lemma zram_scan_spec (devs : list BlockDev) :
  zram_scan devs =
    {| total_used := spec_compressed_bytes devs;
       total_orig := spec_original_bytes devs;
       found := spec_zram_present devs |}.
Proof. unfold zram_scan. rewrite zram_scan_from. done. Qed.

Lemma zram_from_swaps_positive (file : option (list string)) (c o : Z) :
  zram_from_swaps file = Some (c, o) → 0 < o.
Proof.
  unfold zram_from_swaps. intros H.
  destruct file as [all|]; simpl in H; [|done].
  destruct (mapM (int_field 3) _) as [used|]; simpl in H; [|done].
  destruct (mapM (int_field 2) _) as [total|]; simpl in H; [|done].
  destruct (0 <? sum_Z total) eqn:Hpos; [|done].
  injection H as _ <-. lia.
Qed.

(** The reader through the sums of the specification, when the listing
    is there. *)
Lemma get_zram_usage_eq (env : Env) (devs : list BlockDev) :
  sys_block env = Some devs →
  get_zram_usage env =
    Some (if spec_zram_present devs && (0 <? spec_original_bytes devs)
          then Some (spec_compressed_bytes devs / 1024,
                     spec_original_bytes devs / 1024)
          else zram_from_swaps (proc_swaps env)).
Proof.
  intros Hdevs. unfold get_zram_usage. rewrite Hdevs. simpl.
  by rewrite zram_scan_spec.
Qed.

(** C2, as the code has it: the swap listing is consulted exactly when no
    zram device is found or the summed original size is not positive;
    with a zram device and a positive summed original size the result is
    the two sums in kilobytes, whatever the swap listing holds. *)
Theorem zram_primary_path (env : Env) (devs : list BlockDev) :
  sys_block env = Some devs →
  (spec_zram_present devs = true → 0 < spec_original_bytes devs →
     get_zram_usage env =
       Some (Some (spec_compressed_bytes devs / 1024,
                   spec_original_bytes devs / 1024)) ∧
     ∀ env', sys_block env' = Some devs →
       get_zram_usage env' = get_zram_usage env) ∧
  (¬ (spec_zram_present devs = true ∧ 0 < spec_original_bytes devs) →
     get_zram_usage env = Some (zram_from_swaps (proc_swaps env))).
Proof.
  intros Hdevs. split.
  - intros Hpresent Hpos.
    assert (Hgen : ∀ e, sys_block e = Some devs →
      get_zram_usage e =
        Some (Some (spec_compressed_bytes devs / 1024,
                    spec_original_bytes devs / 1024))).
    { intros e He. rewrite (get_zram_usage_eq e devs He), Hpresent. simpl.
      destruct (Z.ltb_spec 0 (spec_original_bytes devs)); [done|lia]. }
    split; [by apply Hgen|].
    intros env' He. by rewrite (Hgen env' He), (Hgen env Hdevs).
  - intros Hnot. rewrite (get_zram_usage_eq env devs Hdevs).
    destruct (spec_zram_present devs); simpl; [|done].
    destruct (Z.ltb_spec 0 (spec_original_bytes devs)); [|done].
    exfalso. apply Hnot. done.
Qed.

Lemma zram_primary_path_witness :
  get_zram_usage env_two_zram = Some (Some (153600, 614400)) ∧
  get_zram_usage env_zram_idle =
    Some (zram_from_swaps (proc_swaps env_zram_idle)).
Proof.
  split.
  - refine (proj1 (proj1 (zram_primary_path env_two_zram _ eq_refl)
                     eq_refl _)).
    vm_compute. reflexivity.
  - refine (proj2 (zram_primary_path env_zram_idle _ eq_refl) _).
    intros [_ H]. vm_compute in H. discriminate.
Defined.

(** C2 as stated fails: a zram device is present, yet the result comes
    from the swap listing and changes with it. *)
Lemma zram_fallback_with_device :
  (∃ devs, sys_block env_zram_idle = Some devs ∧
           sys_block env_zram_idle_no_swaps = Some devs ∧
           spec_zram_present devs = true) ∧
  get_zram_usage env_zram_idle = Some (Some (0, 4194300)) ∧
  get_zram_usage env_zram_idle_no_swaps = Some None ∧
  ¬ (∀ e1 e2 devs, sys_block e1 = Some devs → sys_block e2 = Some devs →
       spec_zram_present devs = true →
       get_zram_usage e2 = get_zram_usage e1).
Proof.
  assert (H1 : get_zram_usage env_zram_idle = Some (Some (0, 4194300)))
    by (vm_compute; reflexivity).
  assert (H2 : get_zram_usage env_zram_idle_no_swaps = Some None)
    by (vm_compute; reflexivity).
  split; [eexists; repeat split; reflexivity|].
  repeat split; try done.
  intros Hall.
  specialize (Hall env_zram_idle env_zram_idle_no_swaps _
                eq_refl eq_refl eq_refl).
  rewrite H1, H2 in Hall. discriminate.
Qed.

(** The original size the reader returns is never negative, and it is
    positive on the fallback path and whenever the devices hold at least
    one kilobyte of original data. *)
Lemma zram_original_nonneg (env : Env) (devs : list BlockDev) (c o : Z) :
  sys_block env = Some devs →
  get_zram_usage env = Some (Some (c, o)) →
  0 <= o ∧ (o = 0 → 0 < spec_original_bytes devs < 1024).
Proof.
  intros Hdevs. rewrite (get_zram_usage_eq env devs Hdevs).
  destruct (spec_zram_present devs && (0 <? spec_original_bytes devs))
    eqn:Hprim.
  - apply andb_prop in Hprim as [_ Hpos]. apply Z.ltb_lt in Hpos.
    intros [= _ <-]. split.
    + apply Z.div_pos; lia.
    + intros Hzero. Z.div_mod_to_equations. lia.
  - intros [= H]. apply zram_from_swaps_positive in H. lia.
Qed.

(** C10 fails on the primary path: the guard is on the sum in bytes and
    the value returned is that sum in kilobytes, so 512 bytes of original
    data give an original size of 0, and the saved-percentage division
    raises in [main]. *)
Theorem zram_original_zero :
  get_zram_usage env_zram_tiny = Some (Some (2, 0)) ∧
  PyFloat.int_truediv 2 0 = None ∧
  main args_saved env_zram_tiny = None.
Proof. vm_compute. done. Qed.

(** ** The characters of the rendered numbers *)

Section Chars.

Variable P : ascii → bool.

Lemma all_chars_app (a b : string) :
  all_chars P (a +:+ b) = all_chars P a && all_chars P b.
Proof.
  induction a as [|c a IH]; simpl; [done|].
  rewrite IH. by rewrite andb_assoc.
Qed.

Lemma all_chars_rev_onto (s acc : string) :
  all_chars P (PyStr.rev_onto s acc) = all_chars P s && all_chars P acc.
Proof.
  revert acc. induction s as [|c s IH]; intros acc; simpl; [done|].
  rewrite IH. simpl. destruct (P c), (all_chars P s); done.
Qed.

Lemma all_chars_rev (s : string) :
  all_chars P (PyStr.rev s) = all_chars P s.
Proof.
  unfold PyStr.rev. rewrite all_chars_rev_onto. simpl.
  by rewrite andb_true_r.
Qed.

Lemma all_chars_substring (s : string) (n m : nat) :
  all_chars P s = true → all_chars P (String.substring n m s) = true.
Proof.
  revert n m. induction s as [|c s IH]; intros n m; simpl.
  - by destruct n, m.
  - intros [Hc Hs]%andb_prop. destruct n as [|n].
    + destruct m as [|m]; simpl; [done|]. by rewrite Hc, (IH 0%nat m Hs).
    + by apply IH.
Qed.

Lemma all_chars_drop_zeros (s : string) :
  all_chars P s = true → all_chars P (PyFloat.drop_zeros s) = true.
Proof.
  induction s as [|c s IH]; simpl; [done|].
  intros H. pose proof H as [Hc Hs]%andb_prop.
  destruct c as [[] [] [] [] [] [] [] []]; simpl; try (by rewrite Hc, Hs).
  by apply IH.
Qed.

Lemma all_chars_zeros (n : nat) :
  P "0" = true → all_chars P (PyFloat.zeros n) = true.
Proof. intros H0. induction n as [|n IH]; simpl; [done|]. by rewrite H0, IH. Qed.

Lemma all_chars_has (s : string) (c : ascii) :
  all_chars P s = true → P c = false → has_char c s = false.
Proof.
  intros Hall Hc. induction s as [|a s IH]; simpl; [done|].
  simpl in Hall. apply andb_prop in Hall as [Ha Hs].
  rewrite (IH Hs), orb_false_r.
  destruct (Ascii.eqb_spec c a) as [->|]; [congruence|done].
Qed.

End Chars.

Lemma startswith_has_char (c : ascii) (p s : string) :
  PyStr.startswith (String c p) s = true → has_char c s = true.
Proof.
  destruct s as [|a s]; simpl; [done|].
  intros [Hc _]%andb_prop. by rewrite Hc.
Qed.

(** A text holding [p] holds the first character of [p]. *)
Lemma contains_has_char (c : ascii) (p s : string) :
  PyStr.contains (String c p) s = true → has_char c s = true.
Proof.
  induction s as [|a s IH]; intros H.
  - simpl in H. done.
  - change (PyStr.startswith (String c p) (String a s)
            || PyStr.contains (String c p) s = true) in H.
    apply orb_prop in H as [H|H].
    + by apply startswith_has_char in H.
    + simpl. rewrite (IH H). by rewrite orb_true_r.
Qed.

Lemma startswith_app (p s : string) : PyStr.startswith p (p +:+ s) = true.
Proof.
  induction p as [|c p IH]; simpl; [done|].
  by rewrite Ascii.eqb_refl, IH.
Qed.

Lemma contains_unfold (p s : string) :
  PyStr.contains p s =
    PyStr.startswith p s ||
    match s with
    | EmptyString => false
    | String _ s' => PyStr.contains p s'
    end.
Proof. by destruct s. Qed.

Lemma contains_cons (p : string) (c : ascii) (s : string) :
  PyStr.contains p (String c s) =
    PyStr.startswith p (String c s) || PyStr.contains p s.
Proof. done. Qed.

Lemma contains_app_r (p a b : string) :
  PyStr.contains p b = true → PyStr.contains p (a +:+ b) = true.
Proof.
  intros H. induction a as [|c a IH]; [done|].
  change (String c a +:+ b) with (String c (a +:+ b)).
  rewrite contains_cons, IH. by rewrite orb_true_r.
Qed.

Lemma uint_chars (d : Decimal.uint) :
  all_chars float_char (NilEmpty.string_of_uint d) = true.
Proof.
  induction d as [|d IH|d IH|d IH|d IH|d IH|d IH|d IH|d IH|d IH|d IH];
    [done|..];
    cbn [NilEmpty.string_of_uint all_chars]; rewrite IH; reflexivity.
Qed.

Lemma str_chars (z : Z) : all_chars float_char (PyInt.str z) = true.
Proof.
  unfold PyInt.str, NilZero.string_of_int, NilZero.string_of_uint.
  destruct (Z.to_int z) as [d|d].
  - destruct d; [done|apply uint_chars..].
  - cbn [all_chars]. destruct d; [done|rewrite uint_chars; reflexivity..].
Qed.

Lemma exponent_chars (e : Z) : all_chars float_char (PyFloat.exponent e) = true.
Proof.
  unfold PyFloat.exponent. rewrite !all_chars_app.
  destruct (e <? 0), (Z.abs e <? 10);
    rewrite ?all_chars_app, str_chars; reflexivity.
Qed.

Lemma layout_chars (ds : string) (decpt : Z) :
  all_chars float_char ds = true →
  all_chars float_char (PyFloat.layout ds decpt) = true.
Proof.
  intros Hds. unfold PyFloat.layout, PyFloat.take, PyFloat.drop.
  destruct ((decpt <=? -4) || (16 <? decpt)).
  - rewrite !all_chars_app, exponent_chars, all_chars_substring by done.
    destruct (1 <? _); [|done].
    rewrite all_chars_app, all_chars_substring by done. done.
  - destruct (decpt <=? 0).
    + rewrite !all_chars_app, Hds, all_chars_zeros by done. done.
    + destruct (_ <=? decpt).
      * rewrite !all_chars_app, Hds, all_chars_zeros by done. done.
      * rewrite !all_chars_app, !all_chars_substring by done. done.
Qed.

(** The text of a float is made of digits, a point, a sign, an exponent
    mark and the letters of [inf] and [nan]. *)
Lemma repr_chars (x : spec_float) : all_chars float_char (repr x) = true.
Proof.
  unfold repr, PyFloat.repr.
  destruct x as [s|s| |s m e]; [by destruct s|by destruct s|done|].
  cbv zeta. destruct (PyFloat.shortest _ _ _ _ _) as [k n].
  rewrite all_chars_app, layout_chars.
  - by destruct s.
  - by rewrite all_chars_rev, all_chars_drop_zeros
      by (rewrite all_chars_rev; apply str_chars).
Qed.

Lemma has_char_app (c : ascii) (a b : string) :
  has_char c (a +:+ b) = has_char c a || has_char c b.
Proof.
  induction a as [|x a IH]; simpl; [done|]. by rewrite IH, orb_assoc.
Qed.

Lemma repr_lacks (c : ascii) (x : spec_float) :
  float_char c = false → has_char c (repr x) = false.
Proof. intros Hc. exact (all_chars_has float_char _ c (repr_chars x) Hc). Qed.

Lemma lacks_contains (c : ascii) (p s : string) :
  has_char c s = false → PyStr.contains (String c p) s = false.
Proof.
  intros H. destruct (PyStr.contains (String c p) s) eqn:E; [|done].
  apply contains_has_char in E. congruence.
Qed.

Lemma append_assoc (a b c : string) : (a +:+ b) +:+ c = a +:+ b +:+ c.
Proof.
  induction a as [|x a IH]; [done|].
  change (String x ((a +:+ b) +:+ c) = String x (a +:+ b +:+ c)).
  by f_equal.
Qed.

(** A character that is neither of a float nor of a colour marker is not
    in a coloured ratio. *)
Lemma color_ratio_lacks (c : ascii) (x : spec_float) (m : bool) :
  float_char c = false →
  has_char c (red +:+ yellow +:+ green +:+ reset) = false →
  has_char c (color_ratio (Float x) m) = false.
Proof.
  intros Hf Hm. pose proof (repr_lacks c x Hf) as Hr.
  rewrite !has_char_app in Hm.
  apply orb_false_elim in Hm as [Hred Hm].
  apply orb_false_elim in Hm as [Hyellow Hm].
  apply orb_false_elim in Hm as [Hgreen Hreset].
  unfold color_ratio, str. fold (repr x).
  destruct m; [done|].
  destruct (lt _ _); [|destruct (lt _ _)];
    rewrite !has_char_app, Hr, Hreset, ?Hred, ?Hyellow, ?Hgreen; done.
Qed.

(** *** When the float operations of [main] are defined *)

Lemma overflow_bound_pos : 0 < PyFloat.overflow_bound.
Proof. reflexivity. Qed.

Lemma int_truediv_defined (a b : Z) :
  b ≠ 0 → in_float_range a → is_Some (PyFloat.int_truediv a b).
Proof.
  unfold in_float_range, PyFloat.int_truediv. intros Hb Ha.
  pose proof overflow_bound_pos as Hpos.
  destruct (Z.eqb_spec b 0); [done|].
  destruct (Z.leb_spec (PyFloat.overflow_bound * Z.abs b) (Z.abs a)); [|eauto].
  exfalso. generalize dependent PyFloat.overflow_bound. intros B; nia.
Qed.

Lemma of_int_1024 :
  PyFloat.of_int 1024 = Some (S754_finite false 4503599627370496 (-42)).
Proof. vm_compute. reflexivity. Qed.

Lemma div_int_1024 (x : spec_float) :
  PyFloat.div_int x 1024 =
    Some (PyFloat.fdiv x (S754_finite false 4503599627370496 (-42))).
Proof. unfold PyFloat.div_int. rewrite of_int_1024. reflexivity. Qed.

(** [format_gb] is the rounding of the two divisions, and is defined on
    the whole float range. *)
Lemma format_gb_eq (kb : Z) (x : spec_float) :
  PyFloat.int_truediv kb 1024 = Some x →
  format_gb kb =
    Some (PyFloat.round1
            (PyFloat.fdiv x (S754_finite false 4503599627370496 (-42)))).
Proof.
  intros Hx. unfold format_gb. rewrite Hx.
  change (mbind (λ y, Some (PyFloat.round1 y)) (PyFloat.div_int x 1024) = 
          Some (PyFloat.round1
            (PyFloat.fdiv x (S754_finite false 4503599627370496 (-42))))).
  rewrite div_int_1024. reflexivity.
Qed.

Lemma format_gb_defined (kb : Z) :
  in_float_range kb → is_Some (format_gb kb).
Proof.
  intros Hkb.
  destruct (int_truediv_defined kb 1024) as [x Hx]; [done|done|].
  rewrite (format_gb_eq kb x Hx). eauto.
Qed.

Lemma int_sub_1_defined (x : spec_float) : is_Some (PyFloat.int_sub 1 x).
Proof.
  unfold PyFloat.int_sub.
  replace (PyFloat.of_int 1) with (Some (S754_finite false 4503599627370496 (-52)))
    by (vm_compute; reflexivity).
  simpl. eauto.
Qed.

Lemma int_mul_100_defined (x : spec_float) : is_Some (PyFloat.int_mul 100 x).
Proof.
  unfold PyFloat.int_mul.
  replace (PyFloat.of_int 100) with (Some (S754_finite false 7036874417766400 (-46)))
    by (vm_compute; reflexivity).
  simpl. eauto.
Qed.

(** ** The zram fragment *)

Lemma append_nil_r (a : string) : a +:+ "" = a.
Proof.
  induction a as [|x a IH]; [done|].
  change (String x (a +:+ "") = String x a). by f_equal.
Qed.

(** The shape of [zram_str]: the two sizes, then the ratio part, then the
    saved part, each empty unless its option is set and the compressed
    size is positive. *)
Lemma zram_text_inv (a : Args) (used total : Z) (s : string) :
  zram_text a used total = Some s →
  ∃ gu gt rpart spart,
    format_gb used = Some gu ∧ format_gb total = Some gt ∧
    s = repr gu +:+ "/" +:+ repr gt +:+ "GB" +:+ rpart +:+ spart ∧
    (if ratio a && (0 <? used)
     then ∃ q, PyFloat.int_truediv total used = Some q ∧
            rpart = " (" +:+ color_ratio (Float (PyFloat.round1 q)) (minimal a)
                    +:+ ":1)"
     else rpart = "") ∧
    (if saved a && (0 <? used)
     then ∃ q d v, PyFloat.int_truediv used total = Some q ∧
            PyFloat.int_sub 1 q = Some d ∧ PyFloat.int_mul 100 d = Some v ∧
            spart = " Saved " +:+ repr (PyFloat.round1 v) +:+ "%"
     else spart = "").
Proof.
  unfold zram_text. intros H.
  destruct (format_gb used) as [gu|]; [|done].
  destruct (format_gb total) as [gt|]; [|done].
  cbn [mbind option_bind] in H.
  exists gu, gt.
  assert (Hsaved : ∀ z : string,
    (if saved a && (0 <? used)
     then q ← PyFloat.int_truediv used total;
          d ← PyFloat.int_sub 1 q;
          saved_val ← PyFloat.int_mul 100 d;
          Some (z +:+ " Saved " +:+ repr (PyFloat.round1 saved_val) +:+ "%")
     else Some z) = Some s →
    ∃ spart, s = z +:+ spart ∧
      (if saved a && (0 <? used)
       then ∃ q d v, PyFloat.int_truediv used total = Some q ∧
              PyFloat.int_sub 1 q = Some d ∧ PyFloat.int_mul 100 d = Some v ∧
              spart = " Saved " +:+ repr (PyFloat.round1 v) +:+ "%"
       else spart = "")).
  { intros z Hz. destruct (saved a && (0 <? used)).
    - destruct (PyFloat.int_truediv used total) as [q|] eqn:Eq; [|done].
      cbn [mbind option_bind] in Hz.
      destruct (PyFloat.int_sub 1 q) as [d|] eqn:Ed; [|done].
      cbn [mbind option_bind] in Hz.
      destruct (PyFloat.int_mul 100 d) as [v|] eqn:Ev; [|done].
      cbn [mbind option_bind] in Hz. injection Hz as <-.
      eexists. split; [reflexivity|]. by exists q, d, v.
    - injection Hz as <-. exists "". by rewrite append_nil_r. }
  destruct (ratio a && (0 <? used)).
  - destruct (PyFloat.int_truediv total used) as [q|] eqn:Eq; [|done].
    cbn [mbind option_bind] in H.
    destruct (Hsaved _ H) as (spart & -> & Hspart).
    eexists _, spart. repeat split; [|by exists q|done].
    by rewrite !append_assoc.
  - cbn [mbind option_bind] in H.
    destruct (Hsaved _ H) as (spart & -> & Hspart).
    exists "", spart. repeat split; [|done].
    by rewrite !append_assoc.
Qed.

Lemma icon_zram (m : bool) :
  icon m "zram" = Some (if m then "zram" else "📦").
Proof. destruct m; vm_compute; reflexivity. Qed.

Lemma zram_text_defined (a : Args) (used total : Z) :
  total ≠ 0 → in_float_range used → in_float_range total →
  is_Some (zram_text a used total).
Proof.
  intros Htotal Hused Hrange. unfold zram_text.
  destruct (format_gb_defined used Hused) as [gu ->].
  destruct (format_gb_defined total Hrange) as [gt ->].
  cbn [mbind option_bind].
  assert (Hsaved : ∀ z : string, is_Some
    (if saved a && (0 <? used)
     then q ← PyFloat.int_truediv used total;
          d ← PyFloat.int_sub 1 q;
          saved_val ← PyFloat.int_mul 100 d;
          Some (z +:+ " Saved " +:+ repr (PyFloat.round1 saved_val) +:+ "%")
     else Some z)).
  { intros z. destruct (saved a && (0 <? used)); [|eauto].
    destruct (int_truediv_defined used total Htotal Hused) as [q ->].
    cbn [mbind option_bind].
    destruct (int_sub_1_defined q) as [d ->]. cbn [mbind option_bind].
    destruct (int_mul_100_defined d) as [v ->]. cbn [mbind option_bind].
    eauto. }
  destruct (ratio a && (0 <? used)) eqn:Hr.
  - apply andb_prop in Hr as [_ Hpos%Z.ltb_lt].
    destruct (int_truediv_defined total used) as [q ->]; [lia|done|].
    cbn [mbind option_bind]. apply Hsaved.
  - cbn [mbind option_bind]. apply Hsaved.
Qed.

Lemma zram_part_inv (a : Args) (used total : Z) (parts : list string) :
  zram_part a (Some (used, total)) = Some parts →
  ∃ s, zram_text a used total = Some s ∧
       parts = [(if minimal a then "zram" else "📦") +:+ " " +:+ s].
Proof.
  unfold zram_part. rewrite icon_zram.
  destruct (zram_text a used total) as [s|]; [|done].
  cbn [mbind option_bind]. intros [= <-]. by exists s.
Qed.

Lemma contains_here (p b : string) : PyStr.contains p (p +:+ b) = true.
Proof. by rewrite contains_unfold, startswith_app. Qed.

(** X20: the zram fragment holds a ratio part exactly when the ratio
    option is set and the compressed size is positive, and the number in
    it is [round(original / compressed, 1)]. *)
Theorem zram_ratio_fragment (a : Args) (used total : Z) :
  (total ≠ 0 → in_float_range used → in_float_range total →
     is_Some (zram_part a (Some (used, total)))) ∧
  ∀ parts, zram_part a (Some (used, total)) = Some parts →
    ∃ frag, parts = [frag] ∧
      (PyStr.contains ":1)" frag = true ↔ ratio a = true ∧ 0 < used) ∧
      (ratio a = true → 0 < used →
         ∃ q pre post, PyFloat.int_truediv total used = Some q ∧
           frag = pre +:+ " (" +:+
                  color_ratio (Float (PyFloat.round1 q)) (minimal a)
                  +:+ ":1)" +:+ post).
Proof.
  split.
  - intros Htotal Hused Hrange. unfold zram_part. rewrite icon_zram.
    destruct (zram_text_defined a used total Htotal Hused Hrange) as [s ->].
    cbn [mbind option_bind]. eauto.
  - intros parts (s & Hs & ->)%zram_part_inv. eexists. split; [done|].
    apply zram_text_inv in Hs
      as (gu & gt & rpart & spart & Hgu & Hgt & -> & Hr & Hsv).
    destruct (ratio a && (0 <? used)) eqn:Hcond.
    + destruct Hr as (q & Hq & ->).
      apply andb_prop in Hcond as [Hratio Hpos%Z.ltb_lt].
      split.
      * split; [done|]. intros _. do 6 apply contains_app_r.
        rewrite !append_assoc. do 2 apply contains_app_r. apply contains_here.
      * intros _ _. exists q. eexists _, spart. split; [done|].
        rewrite <- !append_assoc. reflexivity.
    + subst rpart. split.
      * split.
        -- intros Hin. exfalso.
           assert (Hno : has_char ":" spart = false).
           { destruct (saved a && (0 <? used)).
             - destruct Hsv as (q & d & v & _ & _ & _ & ->).
               rewrite !has_char_app, repr_lacks; done.
             - by subst. }
           rewrite lacks_contains in Hin; [done|].
           rewrite !has_char_app, !repr_lacks, Hno by done.
           by destruct (minimal a).
        -- intros [Hratio Hpos%Z.ltb_lt]. rewrite Hratio, Hpos in Hcond. done.
      * intros Hratio Hpos%Z.ltb_lt. rewrite Hratio, Hpos in Hcond. done.
Qed.

Lemma zram_ratio_fragment_witness :
  is_Some (zram_part args_full (Some (153600, 614400))) ∧
  ∃ frag, [ "📦 0.1/0.6GB (" +:+ green +:+ "4.0" +:+ reset
            +:+ ":1) Saved 75.0%" ] = [frag] ∧
    (PyStr.contains ":1)" frag = true ↔ ratio args_full = true ∧ 0 < 153600).
Proof.
  split.
  - apply (proj1 (zram_ratio_fragment args_full 153600 614400));
      [done|vm_compute; reflexivity..].
  - destruct (proj2 (zram_ratio_fragment args_full 153600 614400) _
        ltac:(vm_compute; reflexivity)) as (frag & Hfrag & Hiff & _).
    exists frag. split; [exact Hfrag|exact Hiff].
Defined.

(** X21: the zram fragment holds a saved part exactly when the saved
    option is set and the compressed size is positive, and the number in
    it is [round(100 * (1 - compressed / original), 1)]. *)
Theorem zram_saved_fragment (a : Args) (used total : Z) :
  (total ≠ 0 → in_float_range used → in_float_range total →
     is_Some (zram_part a (Some (used, total)))) ∧
  ∀ parts, zram_part a (Some (used, total)) = Some parts →
    ∃ frag, parts = [frag] ∧
      (PyStr.contains "Saved" frag = true ↔ saved a = true ∧ 0 < used) ∧
      (saved a = true → 0 < used →
         ∃ q d v pre, PyFloat.int_truediv used total = Some q ∧
           PyFloat.int_sub 1 q = Some d ∧ PyFloat.int_mul 100 d = Some v ∧
           frag = pre +:+ " Saved " +:+ repr (PyFloat.round1 v) +:+ "%").
Proof.
  split.
  - intros Htotal Hused Hrange. unfold zram_part. rewrite icon_zram.
    destruct (zram_text_defined a used total Htotal Hused Hrange) as [s ->].
    cbn [mbind option_bind]. eauto.
  - intros parts (s & Hs & ->)%zram_part_inv. eexists. split; [done|].
    apply zram_text_inv in Hs
      as (gu & gt & rpart & spart & Hgu & Hgt & -> & Hr & Hsv).
    destruct (saved a && (0 <? used)) eqn:Hcond.
    + destruct Hsv as (q & d & v & Hq & Hd & Hv & ->).
      apply andb_prop in Hcond as [Hsaved Hpos%Z.ltb_lt].
      split.
      * split; [done|]. intros _. do 7 apply contains_app_r.
        apply (contains_app_r "Saved" " ").
        exact (contains_here "Saved" (" " +:+ repr (PyFloat.round1 v) +:+ "%")).
      * intros _ _. exists q, d, v. eexists. repeat split; [done..|].
        rewrite <- !append_assoc. reflexivity.
    + subst spart. split.
      * split.
        -- intros Hin. exfalso.
           assert (Hno : has_char "S" rpart = false).
           { destruct (ratio a && (0 <? used)).
             - destruct Hr as (q & _ & ->).
               rewrite !has_char_app, color_ratio_lacks; done.
             - by subst. }
           rewrite lacks_contains in Hin; [done|].
           rewrite !has_char_app, !repr_lacks, Hno by done.
           by destruct (minimal a).
        -- intros [Hsaved Hpos%Z.ltb_lt]. rewrite Hsaved, Hpos in Hcond. done.
      * intros Hsaved Hpos%Z.ltb_lt. rewrite Hsaved, Hpos in Hcond. done.
Qed.

Lemma zram_saved_fragment_witness :
  is_Some (zram_part args_full_minimal (Some (153600, 614400))) ∧
  ∃ frag, [ "zram 0.1/0.6GB (4.0:1) Saved 75.0%" ] = [frag] ∧
    (PyStr.contains "Saved" frag = true ↔
     saved args_full_minimal = true ∧ 0 < 153600).
Proof.
  split.
  - apply (proj1 (zram_saved_fragment args_full_minimal 153600 614400));
      [done|vm_compute; reflexivity..].
  - destruct (proj2 (zram_saved_fragment args_full_minimal 153600 614400) _
        ltac:(vm_compute; reflexivity)) as (frag & Hfrag & Hiff & _).
    exists frag. split; [exact Hfrag|exact Hiff].
Defined.

(** ** The zram fragment at an original size of zero *)

(** C3 fails on the reading of C10: the reader returns a compressed size
    of 2 and an original size of 0; with [--ratio] alone the fragment has
    its ratio part, but with [--ratio --saved] the saved percentage
    divides by the original size, [main] ends with [ZeroDivisionError]
    and no zram fragment is printed, though the ratio option is set and
    the compressed size is positive. *)
Theorem zram_ratio_lost :
  get_zram_usage env_zram_tiny = Some (Some (2, 0)) ∧
  (ratio args_full = true ∧ 0 < 2) ∧
  zram_part args_full (Some (2, 0)) = None ∧
  main args_full env_zram_tiny = None ∧
  zram_part args_ratio (Some (2, 0)) =
    Some ["📦 0.0/0.0GB (" +:+ red +:+ "0.0" +:+ reset +:+ ":1)"].
Proof. vm_compute. repeat split; done. Qed.

(** C4 fails on the reading of C10: the reader returns a compressed size
    of 2 and an original size of 0; with [--saved] the saved option is
    set and the compressed size is positive, yet the division
    [z_used_kb / z_total_kb] raises [ZeroDivisionError], the zram
    fragment is not built and [main] prints nothing. *)
Theorem zram_saved_raises :
  get_zram_usage env_zram_tiny = Some (Some (2, 0)) ∧
  (saved args_saved = true ∧ 0 < 2) ∧
  PyFloat.int_truediv 2 0 = None ∧
  zram_text args_saved 2 0 = None ∧
  zram_part args_saved (Some (2, 0)) = None ∧
  main args_saved env_zram_tiny = None.
Proof. vm_compute. repeat split; done. Qed.

(** ** The swap fragment *)

Lemma swap_part_inv (a : Args) (used total : Z) (parts : list string) :
  swap_part a (Some (used, total)) = Some parts →
  ∃ gu gt, format_gb used = Some gu ∧ format_gb total = Some gt ∧
    parts =
      [ (if negb (minimal a) then "💽" else "SWP") +:+ " " +:+
        (let swap_str := repr gu +:+ "/" +:+ repr gt +:+ "GB" in
         if 0 <? used then
           if negb (minimal a) then red +:+ swap_str +:+ reset else swap_str
         else swap_str) ].
Proof.
  unfold swap_part, swap_text.
  destruct (format_gb used) as [gu|]; [|done].
  destruct (format_gb total) as [gt|]; [|done].
  cbn [mbind option_bind]. intros [= <-]. by exists gu, gt.
Qed.

(** C6: a positive used size is wrapped in the critical colour marker in
    normal mode and left plain in minimal mode; a used size of zero is
    plain in both modes.  The plain text holds no escape character. *)
Theorem swap_fragment (a : Args) (used total : Z) :
  (in_float_range used → in_float_range total →
     is_Some (swap_part a (Some (used, total)))) ∧
  ∀ parts, swap_part a (Some (used, total)) = Some parts →
    ∃ gu gt, format_gb used = Some gu ∧ format_gb total = Some gt ∧
      let value := repr gu +:+ "/" +:+ repr gt +:+ "GB" in
      has_char (ascii_of_nat 27) value = false ∧
      (0 < used → minimal a = false →
         parts = ["💽" +:+ " " +:+ red +:+ value +:+ reset]) ∧
      (0 < used → minimal a = true → parts = ["SWP" +:+ " " +:+ value]) ∧
      (used = 0 → parts =
         [(if minimal a then "SWP" else "💽") +:+ " " +:+ value]).
Proof.
  split.
  - intros Hused Htotal. unfold swap_part, swap_text.
    destruct (format_gb_defined used Hused) as [gu ->].
    destruct (format_gb_defined total Htotal) as [gt ->].
    cbn [mbind option_bind]. eauto.
  - intros parts (gu & gt & Hgu & Hgt & ->)%swap_part_inv.
    exists gu, gt. split; [done|]. split; [done|]. cbv zeta. split.
    { rewrite !has_char_app, !repr_lacks by done. done. }
    split; [|split].
    + intros Hpos%Z.ltb_lt ->. by rewrite Hpos.
    + intros Hpos%Z.ltb_lt ->. by rewrite Hpos.
    + intros ->. by destruct (minimal a).
Qed.

Lemma swap_fragment_witness :
  is_Some (swap_part args_full (Some (1024000, 2097148))) ∧
  [ "💽 " +:+ red +:+ "1.0/2.0GB" +:+ reset ]
    = ["💽" +:+ " " +:+ red +:+ ("1.0" +:+ "/" +:+ "2.0" +:+ "GB") +:+ reset].
Proof.
  split.
  - apply (proj1 (swap_fragment args_full 1024000 2097148));
      vm_compute; reflexivity.
  - destruct (proj2 (swap_fragment args_full 1024000 2097148) _
        ltac:(vm_compute; reflexivity))
      as (gu & gt & Hgu & Hgt & _ & Hred & _).
    vm_compute in Hgu, Hgt.
    injection Hgu as <-. injection Hgt as <-.
    exact (Hred ltac:(lia) eq_refl).
Defined.

(** ** The fragments of the line *)

(** Every block of [main] appends one fragment for a reading that is
    present and nothing for one that is absent, but for the zram block. *)
Lemma cpu_part_length (a : Args) r (l : list string) :
  cpu_part a r = Some l → length l = shown r.
Proof.
  unfold cpu_part. destruct r; [|by intros [= <-]].
  destruct (icon _ _); [|done]. by intros [= <-].
Qed.

Lemma temp_part_length (a : Args) r (l : list string) :
  temp_part a r = Some l → length l = shown r.
Proof.
  unfold temp_part. destruct r as [t|]; [|by intros [= <-]].
  destruct (icon _ _); [|done]. cbn [mbind option_bind].
  destruct (PyFloat.to_int t); [|done]. by intros [= <-].
Qed.

Lemma ram_part_length (a : Args) r (l : list string) :
  ram_part a r = Some l → length l = shown r.
Proof.
  unfold ram_part. destruct r as [[[u t] c]|]; [|by intros [= <-]].
  destruct (PyFloat.int_truediv u 1024); [|done]. cbn [mbind option_bind fmap option_fmap option_map].
  destruct (PyFloat.int_truediv t 1024); [|done]. cbn [mbind option_bind fmap option_fmap option_map].
  destruct (PyFloat.int_truediv c 1024); [|done]. cbn [mbind option_bind fmap option_fmap option_map].
  destruct (icon _ _); [|done]. by intros [= <-].
Qed.

Lemma swap_part_length (a : Args) r (l : list string) :
  swap_part a r = Some l → length l = shown r.
Proof.
  unfold swap_part. destruct r as [[u t]|]; [|by intros [= <-]].
  destruct (swap_text a u t); [|done]. by intros [= <-].
Qed.

Lemma startswith_app_l (p a b : string) :
  PyStr.startswith p a = true → PyStr.startswith p (a +:+ b) = true.
Proof.
  revert a. induction p as [|c p IH]; intros a; [done|].
  destruct a as [|x a]; [done|].
  change (Ascii.eqb c x && PyStr.startswith p a = true →
          Ascii.eqb c x && PyStr.startswith p (a +:+ b) = true).
  intros [-> H]%andb_prop. by rewrite (IH a H).
Qed.

Lemma contains_app_l (p a b : string) :
  PyStr.contains p a = true → PyStr.contains p (a +:+ b) = true.
Proof.
  induction a as [|x a IH].
  - destruct p as [|c p]; [|by intros ?].
    intros _. by rewrite contains_unfold.
  - rewrite contains_cons. change (String x a +:+ b) with (String x (a +:+ b)).
    rewrite contains_cons. intros [H|H]%orb_prop.
    + pose proof (startswith_app_l _ (String x a) b H) as H'.
      change (String x a +:+ b) with (String x (a +:+ b)) in H'.
      by rewrite H'.
    + by rewrite (IH H), orb_true_r.
Qed.

(** A fragment of the list is a part of the joined line. *)
Lemma join_contains (sep p : string) (parts : list string) :
  p ∈ parts → PyStr.contains p (PyStr.join sep parts) = true.
Proof.
  induction parts as [|x rest IH]; intros Hin.
  - by apply elem_of_nil in Hin.
  - apply elem_of_cons in Hin as [->|Hin].
    + destruct rest as [|y rest]; simpl PyStr.join.
      * rewrite <- (append_nil_r x) at 2. apply contains_here.
      * apply contains_here.
    + destruct rest as [|y rest]; [by apply elem_of_nil in Hin|].
      change (PyStr.join sep (x :: y :: rest))
        with (x +:+ sep +:+ PyStr.join sep (y :: rest)).
      do 2 apply contains_app_r. by apply IH.
Qed.

(** ** Whole runs *)

(** The scenario of the specification with two zram devices: the reader
    returns 150 MB and 600 MB in kilobytes, shown as 0.1 and 0.6 GB with
    a ratio of 4.0. *)
Example zram_scenario :
  get_zram_usage env_two_zram = Some (Some (150 * 1024, 600 * 1024)) ∧
  main args_full_minimal env_two_zram =
    Some ("cpu 12.3% temp 45°C ram 8.0/16.0GB (cache 3.0GB) "
          +:+ "zram 0.1/0.6GB (4.0:1) Saved 75.0% SWP 1.0/2.0GB" +:+ nl).
Proof. vm_compute. done. Qed.

(** Without a temperature the fragment is left out and the others stay. *)
Example no_sensors_scenario :
  main args_default env_zram_idle =
    Some ("🧠 " +:+ green +:+ "12.3" +:+ reset +:+ "% 💾 " +:+ green +:+ "8.0"
          +:+ reset +:+ "/16.0GB (cache 3.0GB) 📦 0.0/4.0GB" +:+ nl).
Proof. vm_compute. reflexivity. Qed.

(** The negative cache of [env_shmem] as it is printed. *)
Example negative_cache_line :
  main args_full_minimal env_shmem =
    Some ("cpu 12.3% ram 8.0/16.0GB (cache -3.8GB) zram -" +:+ nl).
Proof. vm_compute. reflexivity. Qed.

(** * Further properties of the code *)

(** ** Colouring *)

Lemma xcompare_antisym (x y : PyFloat.xval) :
  PyFloat.xcompare y x = CompOpp (PyFloat.xcompare x y).
Proof.
  destruct x as [|p|], y as [|q|]; simpl; try done.
  symmetry. apply Qcompare_antisym.
Qed.

Lemma xcompare_le_trans (x y z : PyFloat.xval) :
  PyFloat.xcompare x y ≠ Gt → PyFloat.xcompare y z ≠ Gt →
  PyFloat.xcompare x z ≠ Gt.
Proof.
  destruct x as [|p|], y as [|q|], z as [|r|]; simpl; try congruence.
  rewrite <- !Qle_alt. apply Qle_trans.
Qed.

(** [c <= v1 <= v2] gives [c <= v2], on [int]s and [float]s alike. *)
Lemma ge_le_trans (v1 v2 c : num) :
  ge v1 c = true → le v1 v2 = true → ge v2 c = true.
Proof.
  unfold ge, le, PyNum.compare.
  destruct (PyNum.val v1) as [x|], (PyNum.val v2) as [y|],
    (PyNum.val c) as [z|]; simpl; try discriminate.
  intros Hxz Hxy.
  assert (Hzx : PyFloat.xcompare z x ≠ Gt).
  { rewrite xcompare_antisym. destruct (PyFloat.xcompare x z); simpl; congruence. }
  assert (Hxy' : PyFloat.xcompare x y ≠ Gt)
    by (destruct (PyFloat.xcompare x y); congruence).
  pose proof (xcompare_le_trans z x y Hzx Hxy') as Hzy.
  rewrite xcompare_antisym in Hzy.
  destruct (PyFloat.xcompare y z); simpl in *; congruence.
Qed.

Lemma ge_not_lt (v c : num) : ge v c = true → lt v c = false.
Proof.
  unfold lt, ge. destruct (PyNum.compare v c) as [[]|]; congruence.
Qed.

Lemma ge_3_ge_2 (v : num) : ge v (Int 3) = true → ge v (Int 2) = true.
Proof.
  unfold ge, PyNum.compare. destruct (PyNum.val v) as [x|]; simpl; [|done].
  intros H3.
  assert (H23 : PyFloat.xcompare (PyFloat.Fin (inject_Z 2)) (PyFloat.Fin (inject_Z 3)) ≠ Gt)
    by (vm_compute; congruence).
  assert (H3x : PyFloat.xcompare (PyFloat.Fin (inject_Z 3)) x ≠ Gt).
  { rewrite xcompare_antisym.
    destruct (PyFloat.xcompare x (PyFloat.Fin (inject_Z 3))); simpl; congruence. }
  pose proof (xcompare_le_trans _ _ _ H23 H3x) as H2x.
  rewrite xcompare_antisym in H2x.
  destruct (PyFloat.xcompare x (PyFloat.Fin (inject_Z 2))); simpl in *; congruence.
Qed.

(** X1: The colouring of a compression ratio: critical below 2, warning
    from 2 up to 3, ok from 3 on; the bare text in minimal mode. *)
Theorem color_ratio_thresholds (v : num) :
  color_ratio v true = str v ∧
  (lt v (Int 2) = true → color_ratio v false = red +:+ str v +:+ reset) ∧
  (ge v (Int 2) = true → lt v (Int 3) = true →
     color_ratio v false = yellow +:+ str v +:+ reset) ∧
  (ge v (Int 3) = true → color_ratio v false = green +:+ str v +:+ reset).
Proof.
  unfold color_ratio. split; [done|]. split; [|split].
  - by intros ->.
  - intros H2 H3. by rewrite (ge_not_lt _ _ H2), H3.
  - intros H3.
    by rewrite (ge_not_lt _ _ (ge_3_ge_2 v H3)), (ge_not_lt _ _ H3).
Qed.

Lemma color_ratio_thresholds_witness :
  color_ratio (Float (PyFloat.nearest 15 10)) false = red +:+ "1.5" +:+ reset ∧
  color_ratio (Float (PyFloat.nearest 2 1)) false = yellow +:+ "2.0" +:+ reset ∧
  color_ratio (Float (PyFloat.nearest 3 1)) false = green +:+ "3.0" +:+ reset.
Proof.
  split; [|split].
  - exact (proj1 (proj2 (color_ratio_thresholds
             (Float (PyFloat.nearest 15 10)))) eq_refl).
  - exact (proj1 (proj2 (proj2 (color_ratio_thresholds
             (Float (PyFloat.nearest 2 1))))) eq_refl eq_refl).
  - exact (proj2 (proj2 (proj2 (color_ratio_thresholds
             (Float (PyFloat.nearest 3 1))))) eq_refl).
Defined.

Lemma marker_differs (a b : string) :
  (red +:+ a = green +:+ b → False) ∧ (red +:+ a = yellow +:+ b → False) ∧
  (yellow +:+ a = green +:+ b → False).
Proof. repeat split; intros H; vm_compute in H; congruence. Qed.

(** X2: The colour follows the value: for [v1 <= v2], if [v1] is shown as
    critical so is [v2], and if [v2] is shown as ok so is [v1],
    whatever the thresholds. *)
Theorem color_monotone (v1 v2 warn crit : num) :
  le v1 v2 = true →
  (color v1 warn crit false = red +:+ str v1 +:+ reset →
   color v2 warn crit false = red +:+ str v2 +:+ reset) ∧
  (color v2 warn crit false = green +:+ str v2 +:+ reset →
   color v1 warn crit false = green +:+ str v1 +:+ reset).
Proof.
  intros Hle. unfold color. split.
  - destruct (ge v1 crit) eqn:H1.
    + intros _. by rewrite (ge_le_trans v1 v2 crit H1 Hle).
    + destruct (ge v1 warn); intros H; symmetry in H;
        [apply marker_differs in H|apply marker_differs in H]; done.
  - destruct (ge v2 crit) eqn:Hc2.
    { intros H. by apply marker_differs in H. }
    destruct (ge v2 warn) eqn:Hw2.
    { intros H. by apply marker_differs in H. }
    intros _.
    destruct (ge v1 crit) eqn:Hc1.
    { rewrite (ge_le_trans v1 v2 crit Hc1 Hle) in Hc2. done. }
    destruct (ge v1 warn) eqn:Hw1; [|done].
    rewrite (ge_le_trans v1 v2 warn Hw1 Hle) in Hw2. done.
Qed.

Lemma color_monotone_witness :
  color (Int 95) (Int 70) (Int 90) false = red +:+ "95" +:+ reset ∧
  color (Int 40) (Int 70) (Int 90) false = green +:+ "40" +:+ reset.
Proof.
  split.
  - exact (proj1 (color_monotone (Int 92) (Int 95) (Int 70) (Int 90) eq_refl)
             eq_refl).
  - exact (proj2 (color_monotone (Int 40) (Int 60) (Int 70) (Int 90) eq_refl)
             eq_refl).
Defined.

(** ** The zram reader and the listing of the block devices *)

Lemma spec_zram_present_cons (dev : BlockDev) (devs : list BlockDev) :
  spec_zram_present (dev :: devs) = is_zram dev || spec_zram_present devs.
Proof. done. Qed.

(** The three quantities the reader takes from the listing do not depend
    on its order. *)
Lemma spec_zram_perm (devs devs' : list BlockDev) :
  devs ≡ₚ devs' →
  spec_compressed_bytes devs = spec_compressed_bytes devs' ∧
  spec_original_bytes devs = spec_original_bytes devs' ∧
  spec_zram_present devs = spec_zram_present devs'.
Proof.
  induction 1 as [|d l l' _ (IHc & IHo & IHp)|d d' l
                  |l l' l'' _ (IH1c & IH1o & IH1p) _ (IH2c & IH2o & IH2p)].
  - done.
  - destruct (spec_bytes_cons d l) as [-> ->].
    destruct (spec_bytes_cons d l') as [-> ->].
    rewrite !spec_zram_present_cons, IHc, IHo, IHp. done.
  - destruct (spec_bytes_cons d' (d :: l)) as [-> ->].
    destruct (spec_bytes_cons d (d' :: l)) as [-> ->].
    destruct (spec_bytes_cons d l) as [-> ->].
    destruct (spec_bytes_cons d' l) as [-> ->].
    rewrite !spec_zram_present_cons.
    repeat split; [lia|lia|].
    by destruct (is_zram d), (is_zram d').
  - repeat split; congruence.
Qed.

(** X3: The result does not depend on the order in which [os.listdir] gives
    the block devices. *)
Theorem zram_listing_order (env env' : Env) (devs devs' : list BlockDev) :
  sys_block env = Some devs → sys_block env' = Some devs' →
  devs ≡ₚ devs' → proc_swaps env = proc_swaps env' →
  get_zram_usage env = get_zram_usage env'.
Proof.
  intros Hdevs Hdevs' Hperm Hswaps.
  rewrite (get_zram_usage_eq env devs Hdevs),
    (get_zram_usage_eq env' devs' Hdevs'), Hswaps.
  destruct (spec_zram_perm _ _ Hperm) as (-> & -> & ->). done.
Qed.

Lemma zram_listing_order_witness :
  get_zram_usage env_two_zram =
  get_zram_usage
    (with_sys_block env_two_zram (Some [dev_zram1; dev_sda; dev_zram0])).
Proof.
  apply (zram_listing_order _ _ [dev_sda; dev_zram0; dev_zram1]
           [dev_zram1; dev_sda; dev_zram0]); try reflexivity.
  exact (Permutation_app_comm [dev_sda; dev_zram0] [dev_zram1]).
Defined.

Lemma spec_zram_filter (devs : list BlockDev) :
  let zrams := filter (λ d, is_zram d = true) devs in
  spec_compressed_bytes zrams = spec_compressed_bytes devs ∧
  spec_original_bytes zrams = spec_original_bytes devs ∧
  spec_zram_present zrams = spec_zram_present devs.
Proof.
  induction devs as [|d devs (IHc & IHo & IHp)]; [done|].
  cbv zeta in *. rewrite filter_cons.
  destruct (spec_bytes_cons d devs) as [-> ->].
  rewrite spec_zram_present_cons.
  destruct (is_zram d) eqn:Hz.
  - rewrite decide_True by done.
    destruct (spec_bytes_cons d (filter (λ d, is_zram d = true) devs))
      as [-> ->].
    rewrite spec_zram_present_cons, Hz, IHc, IHo. done.
  - rewrite decide_False by congruence. rewrite IHc, IHo, IHp. done.
Qed.

(** X4: Block devices whose name does not start with [zram] have no
    influence on the result. *)
Theorem zram_other_devices (env env' : Env) (devs : list BlockDev) :
  sys_block env = Some devs →
  sys_block env' = Some (filter (λ d, is_zram d = true) devs) →
  proc_swaps env' = proc_swaps env →
  get_zram_usage env' = get_zram_usage env.
Proof.
  intros Hdevs Hdevs' Hswaps.
  rewrite (get_zram_usage_eq env devs Hdevs),
    (get_zram_usage_eq env' _ Hdevs'), Hswaps.
  destruct (spec_zram_filter devs) as (-> & -> & ->). done.
Qed.

Lemma zram_other_devices_witness :
  get_zram_usage (with_sys_block env_two_zram (Some [dev_zram0; dev_zram1]))
  = get_zram_usage env_two_zram.
Proof.
  apply (zram_other_devices _ _ [dev_sda; dev_zram0; dev_zram1]);
    reflexivity.
Defined.

Lemma spec_zram_app (l1 l2 : list BlockDev) :
  spec_compressed_bytes (l1 ++ l2)
    = spec_compressed_bytes l1 + spec_compressed_bytes l2 ∧
  spec_original_bytes (l1 ++ l2)
    = spec_original_bytes l1 + spec_original_bytes l2 ∧
  spec_zram_present (l1 ++ l2) = spec_zram_present l1 || spec_zram_present l2.
Proof.
  induction l1 as [|d l1 (IHc & IHo & IHp)]; [done|].
  change ((d :: l1) ++ l2) with (d :: (l1 ++ l2)).
  destruct (spec_bytes_cons d (l1 ++ l2)) as [-> ->].
  destruct (spec_bytes_cons d l1) as [-> ->].
  rewrite !spec_zram_present_cons, IHc, IHo, IHp.
  repeat split; [lia|lia|]. by rewrite orb_assoc.
Qed.

Lemma spec_zram_absent (devs : list BlockDev) :
  spec_zram_present devs = false →
  spec_compressed_bytes devs = 0 ∧ spec_original_bytes devs = 0.
Proof.
  induction devs as [|d devs IH]; [done|].
  rewrite spec_zram_present_cons. intros [Hd Hrest]%orb_false_elim.
  destruct (spec_bytes_cons d devs) as [-> ->].
  destruct (IH Hrest) as [-> ->]. by rewrite Hd.
Qed.

(** X5: A device whose accounting files cannot be read is skipped: it
    changes nothing in the result, the sums of the others still count. *)
Theorem zram_unreadable_device (env env' : Env) (pre post : list BlockDev)
    (dev : BlockDev) :
  sys_block env = Some (pre ++ dev :: post) →
  sys_block env' = Some (pre ++ post) →
  proc_swaps env' = proc_swaps env → counters dev = None →
  get_zram_usage env = get_zram_usage env'.
Proof.
  intros Hdevs Hdevs' Hswaps Hnone.
  rewrite (get_zram_usage_eq env _ Hdevs),
    (get_zram_usage_eq env' _ Hdevs'), Hswaps.
  destruct (spec_zram_app pre (dev :: post)) as (-> & -> & ->).
  destruct (spec_zram_app pre post) as (Hc & Ho & Hp).
  rewrite Hc, Ho, Hp.
  destruct (spec_bytes_cons dev post) as [-> ->].
  rewrite spec_zram_present_cons, Hnone. simpl.
  assert (Hz : (if is_zram dev then 0 else 0) = 0) by by destruct (is_zram dev).
  rewrite Hz, !Z.add_0_l.
  destruct (spec_zram_present pre || spec_zram_present post) eqn:Hpresent.
  - replace (spec_zram_present pre || (is_zram dev || spec_zram_present post))
      with true; [done|].
    symmetry. destruct (spec_zram_present pre), (spec_zram_present post),
      (is_zram dev); done.
  - apply orb_false_elim in Hpresent as [Hpre Hpost].
    destruct (spec_zram_absent pre Hpre) as [_ ->].
    destruct (spec_zram_absent post Hpost) as [_ ->].
    simpl. by rewrite andb_false_r.
Qed.

Lemma zram_unreadable_device_witness :
  get_zram_usage
    (with_sys_block env_two_zram
       (Some [dev_sda; dev_zram0; dev_zram2; dev_zram1]))
  = get_zram_usage env_two_zram.
Proof.
  apply (zram_unreadable_device _ _ [dev_sda; dev_zram0] [dev_zram1] dev_zram2);
    reflexivity.
Defined.

(** X6: The original size returned is never negative, and it is zero
    exactly when a zram device is listed and the devices hold between 1
    and 1023 bytes of original data; from the swap listing it is always
    positive. *)
Theorem zram_original_size (env : Env) (devs : list BlockDev) (c o : Z) :
  sys_block env = Some devs →
  get_zram_usage env = Some (Some (c, o)) →
  0 <= o ∧
  (o = 0 ↔ spec_zram_present devs = true ∧
           0 < spec_original_bytes devs < 1024).
Proof.
  intros Hdevs. rewrite (get_zram_usage_eq env devs Hdevs).
  destruct (spec_zram_present devs) eqn:Hpresent; simpl.
  - destruct (Z.ltb_spec 0 (spec_original_bytes devs)) as [Hpos|Hle].
    + intros [= _ <-]. split; [apply Z.div_pos; lia|].
      split.
      * intros Hzero. split; [done|]. Z.div_mod_to_equations. lia.
      * intros [_ Hsmall]. apply Z.div_small. lia.
    + intros [= Hswaps%zram_from_swaps_positive]. split; [lia|]. split; lia.
  - intros [= Hswaps%zram_from_swaps_positive]. split; [lia|].
    split; [lia|]. by intros [? _].
Qed.

Lemma zram_original_size_witness :
  0 <= 614400 ∧
  (614400 = 0 ↔
     spec_zram_present [dev_sda; dev_zram0; dev_zram1] = true ∧
     0 < spec_original_bytes [dev_sda; dev_zram0; dev_zram1] < 1024).
Proof.
  apply (zram_original_size env_two_zram _ 153600 614400).
  - reflexivity.
  - vm_compute. reflexivity.
Defined.

(** ** The zram reader on the swap listing *)

(** X7: On the swap listing nothing is skipped: one zram entry whose size or
    used field is missing or is not a number voids the whole listing,
    whatever the other entries hold. *)
Theorem zram_swaps_malformed_entry (env : Env) (hdr l : string)
    (lines : list string) (devs : list BlockDev) :
  proc_swaps env = Some (hdr :: lines) →
  sys_block env = Some devs → spec_zram_present devs = false →
  l ∈ lines → PyStr.contains "zram" l = true →
  int_field 3 l = None ∨ int_field 2 l = None →
  get_zram_usage env = Some None.
Proof.
  intros Hfile Hdevs Habsent Hin Hzram Hbad.
  rewrite (get_zram_usage_eq env devs Hdevs), Habsent, Hfile.
  simpl andb. cbv iota. f_equal.
  unfold zram_from_swaps. cbn [mbind option_bind tail].
  assert (Hl : l ∈ filter (λ l, PyStr.contains "zram" l = true) lines)
    by by apply list_elem_of_filter.
  assert (Hnone : ∀ i, int_field i l = None →
            mapM (int_field i)
              (filter (λ l, PyStr.contains "zram" l = true) lines) = None).
  { intros i Hi. apply mapM_None_2, Exists_exists. by exists l. }
  destruct Hbad as [H3|H2].
  - by rewrite (Hnone _ H3).
  - destruct (mapM (int_field 3) _) as [used|]; [|done].
    cbn [mbind option_bind]. by rewrite (Hnone _ H2).
Qed.

Lemma zram_swaps_malformed_entry_witness :
  get_zram_usage
    (with_proc_swaps env_no_meminfo
       (Some [swaps_header; swaps_zram0; swaps_zram_bad])) = Some None.
Proof.
  apply (zram_swaps_malformed_entry _ swaps_header swaps_zram_bad
           [swaps_zram0; swaps_zram_bad] []); try reflexivity.
  - apply list_elem_of_further, list_elem_of_here.
  - left. vm_compute. reflexivity.
Defined.

(** ** The swap reader *)

Lemma first_swap_cons (line : string) (rest : list string) :
  first_swap (line :: rest) =
    p0 ← PyStr.split line !! 0%nat;
    if is_disk_swap p0 then
      total ← PyStr.split line !! 2%nat ≫= PyInt.int;
      used ← PyStr.split line !! 3%nat ≫= PyInt.int;
      Some (used, total)
    else first_swap rest.
Proof. done. Qed.

Lemma first_swap_passed_over (pre rest : list string) :
  passed_over pre → first_swap (pre ++ rest) = first_swap rest.
Proof.
  induction 1 as [|l pre (q & Hq & Hno) _ IH]; [done|].
  change ((l :: pre) ++ rest) with (l :: (pre ++ rest)).
  rewrite first_swap_cons, Hq. cbn [mbind option_bind]. by rewrite Hno.
Qed.

(** X8: The reader returns the used and total sizes of the first entry whose
    path looks like a disk swap, in that order, skipping the header and
    the entries in front of it. *)
Theorem swap_first_match (env : Env) (hdr line : string)
    (pre rest more : list string) (p0 f1 size used : string) (sz us : Z) :
  proc_swaps env = Some (hdr :: pre ++ line :: rest) →
  passed_over pre →
  PyStr.split line = p0 :: f1 :: size :: used :: more →
  is_disk_swap p0 = true →
  PyInt.int size = Some sz → PyInt.int used = Some us →
  get_swap_usage env = Some (us, sz).
Proof.
  intros Hfile Hpre Hsplit Hp0 Hsz Hus.
  unfold get_swap_usage. rewrite Hfile. cbn [mbind option_bind tail].
  rewrite (first_swap_passed_over pre _ Hpre), first_swap_cons, Hsplit.
  simpl. rewrite Hp0, Hsz. simpl. by rewrite Hus.
Qed.

Lemma swap_first_match_witness :
  get_swap_usage env_two_zram = Some (1024000, 2097148).
Proof.
  apply (swap_first_match env_two_zram swaps_header swaps_swapfile
           [swaps_zram0] [] ["-2"] "/swapfile" "file" "2097148" "1024000");
    try reflexivity.
  constructor; [|constructor]. exists "/dev/zram0". split; reflexivity.
Defined.

(** X9: The search does not go past an entry it cannot read: a blank line, or
    a disk swap entry whose size or used field is missing or is not a
    number, ends it with nothing, whatever follows. *)
Theorem swap_unreadable_entry (env : Env) (hdr line : string)
    (pre rest : list string) :
  proc_swaps env = Some (hdr :: pre ++ line :: rest) →
  passed_over pre →
  PyStr.split line = [] ∨
  (∃ p0, PyStr.split line !! 0%nat = Some p0 ∧ is_disk_swap p0 = true ∧
     (PyStr.split line !! 2%nat ≫= PyInt.int = None ∨
      PyStr.split line !! 3%nat ≫= PyInt.int = None)) →
  get_swap_usage env = None.
Proof.
  intros Hfile Hpre Hbad.
  unfold get_swap_usage. rewrite Hfile. cbn [mbind option_bind tail].
  rewrite (first_swap_passed_over pre _ Hpre), first_swap_cons.
  destruct Hbad as [->|(p0 & -> & Hp0 & Hfield)]; [done|].
  simpl. rewrite Hp0. destruct Hfield as [->| ->]; [done|].
  by destruct (PyStr.split line !! 2%nat ≫= PyInt.int).
Qed.

Lemma swap_unreadable_entry_witness :
  get_swap_usage
    (with_proc_swaps env_two_zram
       (Some [swaps_header; swaps_zram0; nl; swaps_swapfile])) = None.
Proof.
  apply (swap_unreadable_entry _ swaps_header nl [swaps_zram0] [swaps_swapfile]);
    try reflexivity.
  - constructor; [|constructor]. exists "/dev/zram0". split; reflexivity.
  - left. reflexivity.
Defined.

(** ** The meminfo file *)

Lemma read_meminfo_app (pre rest : list string) (m0 : gmap string Z) :
  read_meminfo (pre ++ rest) m0 =
    m1 ← read_meminfo pre m0; read_meminfo rest m1.
Proof.
  revert m0. induction pre as [|l pre IH]; intros m0; [done|].
  change ((l :: pre) ++ rest) with (l :: (pre ++ rest)).
  cbn [read_meminfo]. destruct (meminfo_line l) as [kv|]; [|done].
  cbn [mbind option_bind]. apply IH.
Qed.

Lemma read_meminfo_malformed (lines : list string) (l : string)
    (m0 : gmap string Z) :
  l ∈ lines → meminfo_line l = None → read_meminfo lines m0 = None.
Proof.
  intros Hin Hbad. revert m0.
  induction lines as [|x lines IH]; intros m0; [by apply elem_of_nil in Hin|].
  cbn [read_meminfo]. apply elem_of_cons in Hin as [<-|Hin].
  - by rewrite Hbad.
  - destruct (meminfo_line x); [|done]. cbn [mbind option_bind]. by apply IH.
Qed.

(** X10: One line of meminfo that does not split in two at a colon, or whose
    value does not start with a number, discards the whole file: the
    reader returns what it returns when the file cannot be opened. *)
Theorem meminfo_malformed_line (env : Env) (lines : list string) (l : string) :
  proc_meminfo env = Some lines → l ∈ lines → meminfo_line l = None →
  get_ram_usage env = get_ram_usage (with_proc_meminfo env None).
Proof.
  intros Hfile Hin Hbad. unfold get_ram_usage, meminfo_cached.
  rewrite Hfile. cbn [mbind option_bind with_proc_meminfo proc_meminfo].
  by rewrite (read_meminfo_malformed lines l ∅ Hin Hbad).
Qed.

Lemma meminfo_malformed_line_witness :
  get_ram_usage (with_proc_meminfo env_no_meminfo (Some meminfo_garbled))
  = get_ram_usage
      (with_proc_meminfo
         (with_proc_meminfo env_no_meminfo (Some meminfo_garbled)) None).
Proof.
  apply (meminfo_malformed_line _ meminfo_garbled ("(truncated)" +:+ nl));
    [reflexivity| |reflexivity].
  do 2 apply list_elem_of_further. apply list_elem_of_here.
Defined.

Lemma read_meminfo_other_keys (lines : list string) (k : string)
    (m0 m : gmap string Z) :
  Forall (λ l, ∀ v, meminfo_line l ≠ Some (k, v)) lines →
  read_meminfo lines m0 = Some m → m !! k = m0 !! k.
Proof.
  intros Hall. revert m0.
  induction Hall as [|l lines Hl _ IH]; intros m0; [by intros [= <-]|].
  cbn [read_meminfo]. destruct (meminfo_line l) as [[k' v']|] eqn:Hline; [|done].
  cbn [mbind option_bind]. intros Hrest. rewrite (IH _ Hrest). simpl.
  apply lookup_insert_ne. intros ->. by apply (Hl v').
Qed.

(** X11: When a key comes several times in meminfo, its last value is the one
    the reader uses. *)
Theorem meminfo_last_value (pre post : list string) (l k : string) (v : Z)
    (m : gmap string Z) :
  meminfo_line l = Some (k, v) →
  Forall (λ l', ∀ v', meminfo_line l' ≠ Some (k, v')) post →
  read_meminfo (pre ++ l :: post) ∅ = Some m →
  get0 m k = v.
Proof.
  intros Hl Hpost. rewrite read_meminfo_app.
  destruct (read_meminfo pre ∅) as [m1|]; [|done].
  cbn [mbind option_bind read_meminfo]. rewrite Hl.
  cbn [mbind option_bind]. intros Hrest.
  unfold get0. rewrite (read_meminfo_other_keys post k _ m Hpost Hrest).
  simpl. by rewrite lookup_insert_eq.
Qed.

Lemma meminfo_last_value_witness :
  ∃ m, read_meminfo meminfo_twice ∅ = Some m ∧ get0 m "Cached" = 409600.
Proof.
  destruct (read_meminfo meminfo_twice ∅) as [m|] eqn:Hm;
    [|vm_compute in Hm; discriminate].
  exists m. split; [done|].
  apply (meminfo_last_value
           [ "Cached:           204800 kB" +:+ nl;
             "Shmem:              1024 kB" +:+ nl ]
           [ "SReclaimable:     102400 kB" +:+ nl ]
           ("Cached:           409600 kB" +:+ nl)).
  - reflexivity.
  - constructor; [|constructor]. intros v'. vm_compute. congruence.
  - exact Hm.
Defined.

(** ** When [main] prints a line *)

Lemma icon_labels (m : bool) :
  icon m "cpu" = Some (if m then "cpu" else "🧠") ∧
  icon m "temp" = Some (if m then "temp" else "🌡") ∧
  icon m "ram" = Some (if m then "ram" else "💾").
Proof. destruct m; vm_compute; done. Qed.

Lemma cpu_part_defined (a : Args) r : is_Some (cpu_part a r).
Proof.
  unfold cpu_part. destruct r; [|eauto].
  destruct (icon_labels (minimal a)) as (-> & _). simpl. eauto.
Qed.

Lemma temp_part_defined (a : Args) r :
  (∀ t, r = Some t → is_Some (PyFloat.to_int t)) → is_Some (temp_part a r).
Proof.
  unfold temp_part. destruct r as [t|]; [|eauto]. intros H.
  destruct (icon_labels (minimal a)) as (_ & -> & _).
  destruct (H t eq_refl) as [n ->]. simpl. eauto.
Qed.

Lemma ram_part_defined (a : Args) r :
  (∀ u t c, r = Some (u, t, c) →
     in_float_range u ∧ in_float_range t ∧ in_float_range c) →
  is_Some (ram_part a r).
Proof.
  unfold ram_part. destruct r as [[[u t] c]|]; [|eauto]. intros H.
  destruct (H u t c eq_refl) as (Hu & Ht & Hc).
  destruct (int_truediv_defined u 1024) as [x ->]; [done..|].
  destruct (int_truediv_defined t 1024) as [y ->]; [done..|].
  destruct (int_truediv_defined c 1024) as [z ->]; [done..|].
  destruct (icon_labels (minimal a)) as (_ & _ & ->). simpl. eauto.
Qed.

Lemma zram_part_defined (a : Args) r :
  (∀ u t, r = Some (u, t) → t ≠ 0 ∧ in_float_range u ∧ in_float_range t) →
  is_Some (zram_part a r).
Proof.
  unfold zram_part. rewrite icon_zram. destruct r as [[u t]|].
  - intros H. destruct (H u t eq_refl) as (Ht & Hu & Hr).
    destruct (zram_text_defined a u t Ht Hu Hr) as [s ->]. simpl. eauto.
  - intros _. destruct (negb (no_zram a)); simpl; eauto.
Qed.

Lemma swap_part_defined (a : Args) r :
  (∀ u t, r = Some (u, t) → in_float_range u ∧ in_float_range t) →
  is_Some (swap_part a r).
Proof.
  unfold swap_part, swap_text. destruct r as [[u t]|]; [|eauto]. intros H.
  destruct (H u t eq_refl) as (Hu & Ht).
  destruct (format_gb_defined u Hu) as [x ->].
  destruct (format_gb_defined t Ht) as [y ->]. simpl. eauto.
Qed.

(** The blocks of [main] all run to their end when the zram reader does
    not raise and every reading can be rendered. *)
Lemma main_defined (a : Args) (env : Env) :
  is_Some (zram_reading a env) →
  (∀ t, temp_reading a env = Some t → is_Some (PyFloat.to_int t)) →
  (∀ u t c, ram_reading a env = Some (u, t, c) →
     in_float_range u ∧ in_float_range t ∧ in_float_range c) →
  (∀ u t, zram_reading a env = Some (Some (u, t)) →
     t ≠ 0 ∧ in_float_range u ∧ in_float_range t) →
  (∀ u t, swap_reading a env = Some (u, t) →
     in_float_range u ∧ in_float_range t) →
  is_Some (main a env).
Proof.
  intros [z Hz] Htemp Hram Hzram Hswap. unfold main, output_parts.
  rewrite Hz. cbn [mbind option_bind].
  destruct (cpu_part_defined a (cpu_reading a env)) as [p1 ->].
  destruct (temp_part_defined a _ Htemp) as [p2 ->].
  destruct (ram_part_defined a _ Hram) as [p3 ->].
  destruct (zram_part_defined a z) as [p4 ->].
  { intros u t ->. by apply Hzram. }
  destruct (swap_part_defined a _ Hswap) as [p5 ->].
  simpl. eauto.
Qed.



(** X19: The listing of [/sys/block/] is not guarded: the zram reader
    raises exactly when the listing does, and then, unless zram is hidden,
    [main] ends with the exception and prints nothing, whatever the other
    metrics are. *)
Theorem main_raises_without_sys_block (a : Args) (env : Env) :
  (get_zram_usage env = None ↔ sys_block env = None) ∧
  (no_zram a = false → sys_block env = None → main a env = None).
Proof.
  split.
  - unfold get_zram_usage. destruct (sys_block env); simpl; split; done.
  - intros Hshow Hnone. unfold main, output_parts, zram_reading,
      get_zram_usage. rewrite Hshow, Hnone. reflexivity.
Qed.

Lemma main_raises_without_sys_block_witness :
  main args_default (with_sys_block env_two_zram None) = None.
Proof.
  apply (proj2 (main_raises_without_sys_block args_default
                  (with_sys_block env_two_zram None))); reflexivity.
Defined.

(** C5: when zram is not hidden and its reader returns nothing, the run
    prints a line as long as the other metrics can be rendered (a finite
    temperature, sizes within the float range), and the line holds the
    zram icon (the tag [zram] in minimal mode) followed by a space and a
    dash, between the fragments of the metrics before it and the swap
    fragment; the blocks of the other metrics append nothing for an absent
    reading. *)
Theorem zram_placeholder (a : Args) (env : Env) :
  no_zram a = false → get_zram_usage env = Some None →
  let placeholder := (if minimal a then "zram" else "📦") +:+ " -" in
  zram_reading a env = Some None ∧
  zram_part a None = Some [placeholder] ∧
  cpu_part a None = Some [] ∧ temp_part a None = Some [] ∧
  ram_part a None = Some [] ∧ swap_part a None = Some [] ∧
  ((∀ t, temp_reading a env = Some t → is_Some (PyFloat.to_int t)) →
   (∀ u t c, ram_reading a env = Some (u, t, c) →
      in_float_range u ∧ in_float_range t ∧ in_float_range c) →
   (∀ u t, swap_reading a env = Some (u, t) →
      in_float_range u ∧ in_float_range t) →
   ∃ line, main a env = Some line ∧
           PyStr.contains placeholder line = true) ∧
  ∀ line, main a env = Some line →
    PyStr.contains placeholder line = true ∧
    ∃ before after,
      output_parts a env = Some (before ++ placeholder :: after) ∧
      length before = (shown (cpu_reading a env) + shown (temp_reading a env)
                       + shown (ram_reading a env))%nat ∧
      length after = shown (swap_reading a env).
Proof.
  intros Hshow Hnone placeholder.
  assert (Hr : zram_reading a env = Some None).
  { unfold zram_reading. by rewrite Hshow. }
  assert (Hz : zram_part a None = Some [placeholder]).
  { unfold zram_part. rewrite Hshow. simpl negb.
    cbv iota. rewrite icon_zram. reflexivity. }
  assert (Hline : ∀ line, main a env = Some line →
    PyStr.contains placeholder line = true ∧
    ∃ before after,
      output_parts a env = Some (before ++ placeholder :: after) ∧
      length before = (shown (cpu_reading a env) + shown (temp_reading a env)
                       + shown (ram_reading a env))%nat ∧
      length after = shown (swap_reading a env)).
  { intros line Hmain. unfold main in Hmain.
    destruct (output_parts a env) as [parts|] eqn:Hparts; [|done].
    cbn [mbind option_bind] in Hmain. injection Hmain as <-.
    unfold output_parts in Hparts. rewrite Hr in Hparts.
    cbn [mbind option_bind] in Hparts. rewrite Hz in Hparts.
    destruct (cpu_part a _) as [p1|] eqn:H1; [|done].
    cbn [mbind option_bind] in Hparts.
    destruct (temp_part a _) as [p2|] eqn:H2; [|done].
    cbn [mbind option_bind] in Hparts.
    destruct (ram_part a _) as [p3|] eqn:H3; [|done].
    cbn [mbind option_bind] in Hparts.
    destruct (swap_part a _) as [p5|] eqn:H5; [|done].
    cbn [mbind option_bind] in Hparts. injection Hparts as <-.
    split.
    - apply contains_app_l, join_contains.
      rewrite !elem_of_app. do 3 right. by left.
    - exists (p1 ++ p2 ++ p3), p5. split; [|split].
      + by rewrite <- !app_assoc.
      + rewrite !length_app, (cpu_part_length _ _ _ H1),
          (temp_part_length _ _ _ H2), (ram_part_length _ _ _ H3). lia.
      + apply (swap_part_length _ _ _ H5). }
  repeat (split; [done|]).
  split; [|exact Hline].
  intros Htemp Hram Hswap.
  destruct (main_defined a env) as [line Hmain];
    [rewrite Hr; eauto|done|done|rewrite Hr; intros u t [=]|done|].
  exists line. split; [done|]. by apply Hline.
Qed.

Lemma zram_placeholder_witness :
  zram_part args_default None = Some ["📦 -"] ∧
  (∃ line, main args_default env_no_meminfo = Some line ∧
           PyStr.contains "📦 -" line = true) ∧
  PyStr.contains "zram -"
    ("cpu 12.3% ram 8.0/16.0GB (cache 3.0GB) zram -" +:+ nl) = true.
Proof.
  split; [|split].
  - exact (proj1 (proj2 (zram_placeholder args_default env_no_meminfo
                           eq_refl eq_refl))).
  - refine (proj1 (proj2 (proj2 (proj2 (proj2 (proj2 (proj2
              (zram_placeholder args_default env_no_meminfo
                 eq_refl eq_refl))))))) _ _ _).
    + intros t Ht. vm_compute in Ht. discriminate.
    + intros u t c [= <- <- <-]. vm_compute. done.
    + intros u t Hut. vm_compute in Hut. discriminate.
  - pose proof (zram_placeholder args_full_minimal env_no_meminfo
                  eq_refl eq_refl) as (_ & _ & _ & _ & _ & _ & _ & Hline).
    exact (proj1 (Hline _ ltac:(vm_compute; reflexivity))).
Defined.

(** X13: The conversion of the temperature to an [int] is not guarded: when
    the temperature read is an infinity or NaN and is not hidden, [main]
    ends with an exception and prints nothing. *)
Theorem main_raises_on_temperature (a : Args) (env : Env) (t : spec_float) :
  no_cpu_temp a = false → get_cpu_temp env = Some t →
  PyFloat.to_int t = None → main a env = None.
Proof.
  intros Hshow Ht Hint. unfold main, output_parts, temp_reading.
  rewrite Hshow, Ht.
  destruct (zram_reading a env) as [z|]; [|done].
  cbn [mbind option_bind].
  destruct (cpu_part_defined a (cpu_reading a env)) as [p1 ->].
  cbn [mbind option_bind negb]. unfold temp_part.
  destruct (icon_labels (minimal a)) as (_ & -> & _).
  cbn [mbind option_bind]. by rewrite Hint.
Qed.

Lemma main_raises_on_temperature_witness :
  main args_default
    (with_sensors_temp env_two_zram (Some (S754_infinity false))) = None.
Proof.
  apply (main_raises_on_temperature _ _ (S754_infinity false)); reflexivity.
Defined.

(** ** Minimal mode *)

Lemma all_chars_weaken (P Q : ascii → bool) (s : string) :
  (∀ c, P c = true → Q c = true) →
  all_chars P s = true → all_chars Q s = true.
Proof.
  intros HPQ. induction s as [|c s IH]; [done|].
  cbn [all_chars]. intros [Hc Hs]%andb_prop. by rewrite (HPQ c Hc), (IH Hs).
Qed.

Lemma float_char_plain (c : ascii) : float_char c = true → plain_char c = true.
Proof. intros H. unfold plain_char. by rewrite H. Qed.

Lemma plain_repr (x : spec_float) : all_chars plain_char (repr x) = true.
Proof. exact (all_chars_weaken _ _ _ float_char_plain (repr_chars x)). Qed.

Lemma plain_float_repr (x : spec_float) :
  all_chars plain_char (PyFloat.repr x) = true.
Proof. exact (plain_repr x). Qed.

Lemma plain_int_str (z : Z) : all_chars plain_char (PyInt.str z) = true.
Proof. exact (all_chars_weaken _ _ _ float_char_plain (str_chars z)). Qed.

Lemma plain_str (v : num) : all_chars plain_char (str v) = true.
Proof. destruct v as [z|x]; [apply plain_int_str|apply plain_repr]. Qed.

Lemma all_chars_join (P : ascii → bool) (sep : string) (parts : list string) :
  all_chars P sep = true → Forall (λ p, all_chars P p = true) parts →
  all_chars P (PyStr.join sep parts) = true.
Proof.
  intros Hsep. induction 1 as [|p rest Hp Hrest IH]; [done|].
  destruct rest as [|q rest]; [done|].
  change (PyStr.join sep (p :: q :: rest))
    with (p +:+ sep +:+ PyStr.join sep (q :: rest)).
  by rewrite !all_chars_app, Hp, Hsep, IH.
Qed.

Lemma cpu_part_plain (a : Args) r (l : list string) :
  minimal a = true → cpu_part a r = Some l → plain_parts l.
Proof.
  intros Hmin. unfold cpu_part, color, plain_parts. rewrite Hmin.
  destruct r as [c|]; [|by intros [= <-]].
  simpl. intros [= <-]. constructor; [|done].
  by rewrite !all_chars_app, ?plain_str, ?plain_float_repr, ?plain_int_str.
Qed.

Lemma temp_part_plain (a : Args) r (l : list string) :
  minimal a = true → temp_part a r = Some l → plain_parts l.
Proof.
  intros Hmin. unfold temp_part, color, plain_parts. rewrite Hmin.
  destruct r as [t|]; [|by intros [= <-]].
  simpl. destruct (PyFloat.to_int t) as [n|]; [|done].
  simpl. intros [= <-]. constructor; [|done].
  by rewrite !all_chars_app, ?plain_str, ?plain_float_repr, ?plain_int_str.
Qed.

Lemma ram_part_plain (a : Args) r (l : list string) :
  minimal a = true → ram_part a r = Some l → plain_parts l.
Proof.
  intros Hmin. unfold ram_part, color, plain_parts. rewrite Hmin.
  destruct r as [[[u t] c]|]; [|by intros [= <-]].
  destruct (PyFloat.int_truediv u 1024) as [x|]; [|done].
  destruct (PyFloat.int_truediv t 1024) as [y|]; [|done].
  destruct (PyFloat.int_truediv c 1024) as [z|]; [|done].
  simpl. intros [= <-]. constructor; [|done].
  destruct (no_ram_cache a); simpl;
    by rewrite !all_chars_app, ?plain_str, ?plain_repr, ?plain_float_repr.
Qed.

Lemma zram_part_plain (a : Args) r (l : list string) :
  minimal a = true → zram_part a r = Some l → plain_parts l.
Proof.
  intros Hmin. unfold plain_parts. destruct r as [[u t]|].
  - intros (s & Hs & ->)%zram_part_inv. rewrite Hmin.
    apply zram_text_inv in Hs
      as (gu & gt & rpart & spart & _ & _ & -> & Hr & Hsv).
    assert (Hrp : all_chars plain_char rpart = true).
    { destruct (ratio a && (0 <? u)); [|by subst].
      destruct Hr as (q & _ & ->). unfold color_ratio. rewrite Hmin.
      by rewrite !all_chars_app, ?plain_str, ?plain_float_repr, ?plain_int_str. }
    assert (Hsp : all_chars plain_char spart = true).
    { destruct (saved a && (0 <? u)); [|by subst].
      destruct Hsv as (q & d & v & _ & _ & _ & ->).
      by rewrite !all_chars_app, ?plain_repr, ?plain_float_repr. }
    constructor; [|done].
    by rewrite !all_chars_app, ?plain_repr, ?plain_float_repr, Hrp, Hsp.
  - unfold zram_part. rewrite icon_zram, Hmin.
    destruct (negb (no_zram a)); simpl; intros [= <-]; [|done].
    by constructor.
Qed.

Lemma swap_part_plain (a : Args) r (l : list string) :
  minimal a = true → swap_part a r = Some l → plain_parts l.
Proof.
  intros Hmin. unfold plain_parts. destruct r as [[u t]|].
  - intros (gu & gt & _ & _ & ->)%swap_part_inv. rewrite Hmin.
    constructor; [|done]. simpl negb. cbv iota zeta.
    destruct (0 <? u); by rewrite !all_chars_app, ?plain_repr, ?plain_float_repr.
  - by intros [= <-].
Qed.

(** X14: In minimal mode the line is made of the characters of numbers, of
    the labels, units and punctuation, and of the newline: it holds no
    escape character and none of the glyphs (whose first byte is 240). *)
Theorem minimal_mode_plain (a : Args) (env : Env) (line : string) :
  minimal a = true → main a env = Some line →
  all_chars plain_char line = true ∧
  has_char (ascii_of_nat 27) line = false ∧
  has_char (ascii_of_nat 240) line = false.
Proof.
  intros Hmin Hmain.
  assert (Hall : all_chars plain_char line = true).
  { unfold main, output_parts in Hmain.
    destruct (zram_reading a env) as [z|]; [|done].
    cbn [mbind option_bind] in Hmain.
    destruct (cpu_part a _) as [p1|] eqn:H1; [|done].
    destruct (temp_part a _) as [p2|] eqn:H2; [|done].
    destruct (ram_part a _) as [p3|] eqn:H3; [|done].
    destruct (zram_part a _) as [p4|] eqn:H4; [|done].
    destruct (swap_part a _) as [p5|] eqn:H5; [|done].
    simpl in Hmain. injection Hmain as <-.
    rewrite all_chars_app, all_chars_join; [done|done|].
    rewrite !Forall_app. repeat split.
    - exact (cpu_part_plain a _ _ Hmin H1).
    - exact (temp_part_plain a _ _ Hmin H2).
    - exact (ram_part_plain a _ _ Hmin H3).
    - exact (zram_part_plain a _ _ Hmin H4).
    - exact (swap_part_plain a _ _ Hmin H5). }
  split; [done|].
  split; by apply (all_chars_has plain_char).
Qed.

Lemma minimal_mode_plain_witness :
  has_char (ascii_of_nat 27)
    ("cpu 12.3% temp 45°C ram 8.0/16.0GB (cache 3.0GB) "
     +:+ "zram 0.1/0.6GB (4.0:1) Saved 75.0% SWP 1.0/2.0GB" +:+ nl) = false.
Proof.
  exact (proj1 (proj2 (minimal_mode_plain args_full_minimal env_two_zram _
          eq_refl ltac:(vm_compute; reflexivity)))).
Defined.

(** ** The temperature reader *)

Lemma after_app (p s : string) : after p (p +:+ s) = Some s.
Proof.
  induction p as [|c p IH]; [done|].
  change (after (String c p) (String c (p +:+ s)) = Some s).
  cbn [after]. by rewrite Ascii.eqb_refl.
Qed.

Lemma span_run (P : ascii → bool) (a s : string) :
  all_chars P a = true → head_outside P s = true →
  span P (a +:+ s) = (a, s).
Proof.
  intros Ha Hs. induction a as [|c a IH].
  - change (span P s = (EmptyString, s)).
    destruct s as [|x s]; [done|].
    cbn [span]. simpl in Hs. by destruct (P x).
  - cbn [all_chars] in Ha. apply andb_prop in Ha as [Hc Ha].
    change (span P (String c (a +:+ s)) = (String c a, s)).
    cbn [span]. by rewrite Hc, (IH Ha).
Qed.

Lemma after_run_app (P : ascii → bool) (a s : string) :
  run_of P a → head_outside P s = true → after_run P (a +:+ s) = Some s.
Proof.
  intros [Hne Ha] Hs. unfold after_run. rewrite (span_run P a s Ha Hs).
  by destruct a.
Qed.

(** The name of a reading is recognised, up to the colon after it. *)
Lemma sensor_label_name (name r : string) :
  sensor_name name → sensor_label (name +:+ ":" +:+ r) = Some (":" +:+ r).
Proof.
  assert (Hhead : head_outside is_digit (":" +:+ r) = true) by done.
  intros [| |ds Hds|ds Hds|ds Hds]; unfold sensor_label.
  - by rewrite after_app.
  - change (after "Tctl" ("Tdie" +:+ ":" +:+ r)) with (@None string).
    by rewrite after_app.
  - change (after "Tctl" (("Package id " +:+ ds) +:+ ":" +:+ r))
      with (@None string).
    change (after "Tdie" (("Package id " +:+ ds) +:+ ":" +:+ r))
      with (@None string).
    rewrite append_assoc, after_app. cbn [or_else mbind option_bind].
    by rewrite (after_run_app _ _ _ Hds Hhead).
  - change (after "Tctl" (("Core " +:+ ds) +:+ ":" +:+ r))
      with (@None string).
    change (after "Tdie" (("Core " +:+ ds) +:+ ":" +:+ r))
      with (@None string).
    change (after "Package id " (("Core " +:+ ds) +:+ ":" +:+ r))
      with (@None string).
    rewrite append_assoc, after_app. cbn [or_else mbind option_bind].
    by rewrite (after_run_app _ _ _ Hds Hhead).
  - change (after "Tctl" (("temp" +:+ ds) +:+ ":" +:+ r))
      with (@None string).
    change (after "Tdie" (("temp" +:+ ds) +:+ ":" +:+ r))
      with (@None string).
    change (after "Package id " (("temp" +:+ ds) +:+ ":" +:+ r))
      with (@None string).
    change (after "Core " (("temp" +:+ ds) +:+ ":" +:+ r))
      with (@None string).
    rewrite append_assoc, after_app. cbn [or_else mbind option_bind].
    by rewrite (after_run_app _ _ _ Hds Hhead).
Qed.

Lemma head_num_char (num r : string) (P : ascii → bool) :
  run_of is_num_char num → (∀ c, is_num_char c = true → P c = false) →
  head_outside P (num +:+ r) = true.
Proof.
  intros [Hne Hall] HP. destruct num as [|c num]; [done|].
  cbn [all_chars] in Hall. apply andb_prop in Hall as [Hc _].
  change (negb (P c) = true). by rewrite (HP c Hc).
Qed.

Lemma num_char_not_space (c : ascii) :
  is_num_char c = true → PyStr.is_space c = false.
Proof. destruct c as [[] [] [] [] [] [] [] []]; by vm_compute. Qed.

Lemma num_char_not_plus (c : ascii) :
  is_num_char c = true → Ascii.eqb c "+" = false.
Proof. destruct c as [[] [] [] [] [] [] [] []]; by vm_compute. Qed.

(** A reading in the form the pattern is written for matches, and the
    match gives its number. *)
Lemma sensor_match_reading (name ws num rest : string) (plus : bool) :
  sensor_name name → run_of PyStr.is_space ws → run_of is_num_char num →
  sensor_match (name +:+ ":" +:+ ws +:+ (if plus then "+" else "")
                +:+ num +:+ "°C" +:+ rest) = Some num.
Proof.
  intros Hname Hws Hnum. unfold sensor_match.
  rewrite (sensor_label_name _ _ Hname). cbn [mbind option_bind].
  rewrite (after_app ":"). cbn [mbind option_bind].
  assert (Hdeg : head_outside is_num_char ("°C" +:+ rest) = true) by done.
  assert (Hspan : span is_num_char (num +:+ "°C" +:+ rest)
                  = (num, "°C" +:+ rest))
    by (apply span_run; [apply Hnum|done]).
  destruct plus.
  - rewrite (after_run_app _ ws _ Hws) by done. cbn [mbind option_bind].
    change (("+" +:+ num +:+ "°C" +:+ rest))
      with (String "+" (num +:+ "°C" +:+ rest)).
    cbv iota beta. rewrite Hspan.
    destruct num as [|c num]; [by destruct Hnum|].
    by rewrite startswith_app.
  - change ("" +:+ num +:+ "°C" +:+ rest) with (num +:+ "°C" +:+ rest).
    rewrite (after_run_app _ ws _ Hws)
      by (apply head_num_char; [done|apply num_char_not_space]).
    cbn [mbind option_bind].
    assert (Hstay : match num +:+ "°C" +:+ rest with
                    | String "+" r' => r'
                    | _ => num +:+ "°C" +:+ rest
                    end = num +:+ "°C" +:+ rest).
    { destruct Hnum as [Hne Hall]. destruct num as [|c num]; [done|].
      cbn [all_chars] in Hall. apply andb_prop in Hall as [Hc _].
      apply num_char_not_plus in Hc.
      change (String c num +:+ "°C" +:+ rest)
        with (String c (num +:+ "°C" +:+ rest)).
      destruct c as [[] [] [] [] [] [] [] []]; try done. }
    rewrite Hstay, Hspan.
    destruct num as [|c num]; [by destruct Hnum|].
    by rewrite startswith_app.
Qed.

Lemma sensor_search_skip (pre s : string) :
  no_match_before pre s = true → sensor_search (pre +:+ s) = sensor_search s.
Proof.
  induction pre as [|c pre IH]; [done|].
  cbn [no_match_before].
  change (String c pre +:+ s) with (String c (pre +:+ s)).
  destruct (sensor_match (String c (pre +:+ s))) eqn:Hm; [done|].
  intros Hrest. cbn [sensor_search]. rewrite Hm. by apply IH.
Qed.

Lemma sensor_search_here (s g : string) :
  sensor_match s = Some g → sensor_search s = Some g.
Proof. intros H. destruct s; cbn [sensor_search]; by rewrite H. Qed.

(** X15: The reader gives the number of the first reading of the output: for
    a name of the pattern, a colon, white space, an optional plus sign, a
    number and the degree mark, with no match before it, the result is
    [float] of the number. *)
Theorem cpu_temp_first_reading (pre name ws num rest : string) (plus : bool) :
  sensor_name name → run_of PyStr.is_space ws → run_of is_num_char num →
  let reading := name +:+ ":" +:+ ws +:+ (if plus then "+" else "")
                 +:+ num +:+ "°C" +:+ rest in
  no_match_before pre reading = true →
  cpu_temp_of (Some (pre +:+ reading)) = float_of_decimal num.
Proof.
  intros Hname Hws Hnum reading Hpre. subst reading. unfold cpu_temp_of.
  cbn [mbind option_bind].
  rewrite (sensor_search_skip pre _ Hpre).
  by rewrite (sensor_search_here _ num
                (sensor_match_reading name ws num rest plus Hname Hws Hnum)).
Qed.

Lemma cpu_temp_first_reading_witness :
  cpu_temp_of (Some sensors_k10temp) = Some (PyFloat.nearest 455 10).
Proof.
  exact (cpu_temp_first_reading
           ("k10temp-pci-00c3" +:+ nl +:+ "Adapter: PCI adapter" +:+ nl)
           "Tctl" "         " "45.5"
           ("  " +:+ nl +:+ "Tdie:         +40.0°C  " +:+ nl) true
           name_Tctl ltac:(by split) ltac:(by split)
           ltac:(vm_compute; reflexivity)).
Defined.

(** *** The sign of a rounded quotient *)

Lemma shr_1_nonneg (mrs : shr_record) :
  0 <= shr_m mrs → 0 <= shr_m (shr_1 mrs).
Proof.
  destruct mrs as [m r s]. simpl.
  destruct m as [|[p|p|]|[p|p|]]; simpl; lia.
Qed.

Lemma iter_pos_invariant {A : Type} (f : A → A) (P : A → Prop) :
  (∀ x, P x → P (f x)) → ∀ p x, P x → P (SpecFloat.iter_pos f p x).
Proof.
  intros Hf. induction p as [p IH|p IH|]; intros x Hx; simpl; auto.
Qed.

Lemma shr_fexp_nonneg (m e : Z) (l : location) :
  0 <= m →
  0 <= shr_m (fst (shr_fexp PyFloat.prec PyFloat.emax m e l)).
Proof.
  intros Hm. unfold shr_fexp, shr.
  assert (H0 : 0 <= shr_m (shr_record_of_loc m l))
    by (destruct l as [|[]]; simpl; lia).
  destruct (_ - e) as [|p|p]; simpl; try done.
  by apply (iter_pos_invariant shr_1 (λ r, 0 <= shr_m r) shr_1_nonneg).
Qed.

(** The sign of a rounded value is the sign asked for: rounding a
    non-negative mantissa does not give NaN. *)
Lemma binary_round_aux_sign (sx : bool) (mx ex : Z) (lx : location) :
  0 <= mx →
  let r := binary_round_aux PyFloat.prec PyFloat.emax sx mx ex lx in
  r = S754_zero sx ∨ (∃ m e, r = S754_finite sx m e) ∨ r = S754_infinity sx.
Proof.
  intros Hmx. cbv zeta. unfold binary_round_aux.
  pose proof (shr_fexp_nonneg mx ex lx Hmx) as H1.
  destruct (shr_fexp PyFloat.prec PyFloat.emax mx ex lx) as [mrs' e'].
  simpl in H1.
  assert (H2 : 0 <= round_nearest_even (shr_m mrs') (loc_of_shr_record mrs')).
  { unfold round_nearest_even.
    destruct (loc_of_shr_record mrs') as [|[]]; try lia.
    destruct (Z.even (shr_m mrs')); lia. }
  pose proof (shr_fexp_nonneg _ e' loc_Exact H2) as H3.
  destruct (shr_fexp PyFloat.prec PyFloat.emax _ e' loc_Exact) as [mrs'' e''].
  simpl in H3. destruct (shr_m mrs'') as [|m|m]; [by left| |lia].
  destruct (e'' <=? _); [right; left; eauto|by right; right].
Qed.

Lemma nearest_sign (a b : Z) :
  0 <= a → 0 < b →
  let r := PyFloat.nearest a b in
  r = S754_zero false ∨ (∃ m e, r = S754_finite false m e)
  ∨ r = S754_infinity false.
Proof.
  intros Ha Hb. cbv zeta. unfold PyFloat.nearest, PyFloat.fdiv.
  destruct b as [|pb|pb]; [lia| |lia].
  destruct a as [|pa|pa]; [by left| |lia].
  cbn [PyFloat.exact SFdiv xorb].
  destruct (SFdiv_core_binary PyFloat.prec PyFloat.emax (Z.pos pa) 0
              (Z.pos pb) 0) as [[mz ez] lz] eqn:Hcore.
  apply binary_round_aux_sign.
  unfold SFdiv_core_binary in Hcore.
  set (m' := match _ - _ - _ with Z.pos _ => _ | Z0 => _ | Z.neg _ => _ end)
    in Hcore.
  assert (Hm' : 0 <= m').
  { subst m'. destruct (_ - _ - _); [lia| |lia].
    apply Z.shiftl_nonneg. lia. }
  pose proof (Z_div_mod m' (Z.pos pb) ltac:(lia)) as Hdm.
  destruct (Z.div_eucl m' (Z.pos pb)) as [q r].
  injection Hcore as <- _ _. nia.
Qed.

Lemma decimal_value_nonneg (s : string) (acc : Z) :
  0 <= acc → 0 <= decimal_value acc s.
Proof.
  revert acc. induction s as [|c s IH]; intros acc Hacc; [done|].
  cbn [decimal_value]. apply IH. unfold PyInt.digit_of.
  destruct (_ && _) eqn:Hd; simpl; [|lia].
  apply andb_prop in Hd as [H48%Z.leb_le _]. lia.
Qed.

Lemma float_of_decimal_sign (g : string) (x : spec_float) :
  float_of_decimal g = Some x →
  x = S754_zero false ∨ (∃ m e, x = S754_finite false m e)
  ∨ x = S754_infinity false.
Proof.
  unfold float_of_decimal. destruct (span is_digit g) as [ip r].
  destruct r as [|c fp].
  - pose proof (decimal_value_nonneg ip 0 ltac:(lia)) as Hn.
    remember (decimal_value 0 ip) as n.
    destruct ip; [done|]. intros [= <-]. by apply nearest_sign.
  - destruct (Ascii.eqb_spec c ".") as [->|Hc].
    + destruct (span is_digit fp) as [fd r'].
      pose proof (decimal_value_nonneg (ip +:+ fd) 0 ltac:(lia)) as Hn.
      remember (decimal_value 0 (ip +:+ fd)) as n.
      destruct r'; [|done]. destruct (ip +:+ fd); [done|].
      intros [= <-]. apply nearest_sign; [done|].
      apply Z.pow_pos_nonneg; lia.
    + destruct c as [[] [] [] [] [] [] [] []]; try done.
Qed.

(** X16: The temperature the reader returns is never NaN and never negative:
    a reading with a minus sign does not match the pattern. *)
Theorem cpu_temp_nonneg (output : option string) (x : spec_float) :
  cpu_temp_of output = Some x → ge (Float x) (Int 0) = true.
Proof.
  unfold cpu_temp_of. destruct output as [out|]; [|done].
  cbn [mbind option_bind]. destruct (sensor_search out) as [g|]; [|done].
  cbn [mbind option_bind]. intros Hx.
  destruct (float_of_decimal_sign g x Hx) as [->|[(m & e & ->)| ->]];
    [done| |done].
  unfold ge, PyNum.compare. cbn [PyNum.val PyFloat.val mbind option_bind].
  cbn [PyFloat.xcompare].
  assert (Hgt : (PyFloat.finite_val false m e ?= inject_Z 0)%Q = Gt).
  { apply Qgt_alt. unfold PyFloat.finite_val, Qlt.
    destruct (0 <=? e) eqn:He; simpl; [|lia].
    apply Z.leb_le in He.
    pose proof (Z.pow_pos_nonneg 2 e ltac:(lia) He). nia. }
  by rewrite Hgt.
Qed.

Lemma cpu_temp_nonneg_witness :
  ge (Float (PyFloat.nearest 455 10)) (Int 0) = true.
Proof.
  apply (cpu_temp_nonneg (Some sensors_k10temp)). vm_compute. reflexivity.
Defined.

(** ** One line, one fragment per reading *)

Lemma zram_part_length (a : Args) r (l : list string) :
  zram_part a r = Some l →
  length l = match r with
             | Some _ => 1%nat
             | None => if no_zram a then 0%nat else 1%nat
             end.
Proof.
  unfold zram_part. rewrite icon_zram. destruct r as [[u t]|].
  - destruct (zram_text a u t); [|done]. by intros [= <-].
  - destruct (no_zram a); by intros [= <-].
Qed.

(** X17: The line holds one fragment for each metric that was read and, for
    zram, the placeholder when it is not hidden and nothing was read: a
    hidden or absent metric leaves no trace. *)
Theorem output_parts_count (a : Args) (env : Env) (parts : list string) :
  output_parts a env = Some parts →
  ∃ zram, zram_reading a env = Some zram ∧
  length parts =
    (shown (cpu_reading a env) + shown (temp_reading a env)
     + shown (ram_reading a env)
     + match zram with
       | Some _ => 1
       | None => if no_zram a then 0 else 1
       end
     + shown (swap_reading a env))%nat.
Proof.
  unfold output_parts.
  destruct (zram_reading a env) as [z|]; [|done].
  cbn [mbind option_bind].
  destruct (cpu_part a _) as [p1|] eqn:H1; [|done].
  destruct (temp_part a _) as [p2|] eqn:H2; [|done].
  destruct (ram_part a _) as [p3|] eqn:H3; [|done].
  destruct (zram_part a _) as [p4|] eqn:H4; [|done].
  destruct (swap_part a _) as [p5|] eqn:H5; [|done].
  simpl. intros [= <-]. exists z. split; [done|].
  rewrite !length_app, (cpu_part_length _ _ _ H1),
    (temp_part_length _ _ _ H2), (ram_part_length _ _ _ H3),
    (zram_part_length _ _ _ H4), (swap_part_length _ _ _ H5). lia.
Qed.

Lemma output_parts_count_witness :
  ∃ parts, output_parts args_default env_zram_idle = Some parts ∧
           length parts = 3%nat.
Proof.
  destruct (output_parts args_default env_zram_idle) as [parts|] eqn:H;
    [|vm_compute in H; discriminate].
  exists parts. split; [done|].
  destruct (output_parts_count args_default env_zram_idle parts H)
    as (z & Hz & Hlen).
  vm_compute in Hz. injection Hz as <-. exact Hlen.
Defined.

Section LineChars.

Variable P : ascii → bool.
Hypothesis P_fragment : ∀ c, fragment_char c = true → P c = true.

Lemma P_literal (s : string) :
  all_chars (λ c, has_char c fragment_alphabet) s = true →
  all_chars P s = true.
Proof.
  apply all_chars_weaken. intros c Hc. apply P_fragment.
  unfold fragment_char. by rewrite Hc, orb_true_r.
Qed.

Lemma P_repr (x : spec_float) : all_chars P (PyFloat.repr x) = true.
Proof.
  apply (all_chars_weaken float_char); [|apply repr_chars].
  intros c Hc. apply P_fragment. unfold fragment_char. by rewrite Hc.
Qed.

Lemma P_str (v : num) : all_chars P (str v) = true.
Proof.
  destruct v as [z|x]; [|apply P_repr].
  apply (all_chars_weaken float_char); [|apply str_chars].
  intros c Hc. apply P_fragment. unfold fragment_char. by rewrite Hc.
Qed.

Lemma P_color (v w c : num) (m : bool) : all_chars P (color v w c m) = true.
Proof.
  unfold color. destruct m; [apply P_str|].
  destruct (ge v c); [|destruct (ge v w)];
    by rewrite !all_chars_app, P_str, !P_literal.
Qed.

Lemma P_color_ratio (v : num) (m : bool) :
  all_chars P (color_ratio v m) = true.
Proof.
  unfold color_ratio. destruct m; [apply P_str|].
  destruct (lt v (Int 2)); [|destruct (lt v (Int 3))];
    by rewrite !all_chars_app, P_str, !P_literal.
Qed.

Lemma cpu_part_chars (a : Args) r (l : list string) :
  cpu_part a r = Some l → Forall (λ p, all_chars P p = true) l.
Proof.
  unfold cpu_part. destruct r as [c|]; [|by intros [= <-]].
  destruct (icon_labels (minimal a)) as (-> & _). simpl. intros [= <-].
  constructor; [|done]. rewrite !all_chars_app, P_color.
  by destruct (minimal a); rewrite !P_literal.
Qed.

Lemma temp_part_chars (a : Args) r (l : list string) :
  temp_part a r = Some l → Forall (λ p, all_chars P p = true) l.
Proof.
  unfold temp_part. destruct r as [t|]; [|by intros [= <-]].
  destruct (icon_labels (minimal a)) as (_ & -> & _). simpl.
  destruct (PyFloat.to_int t) as [n|]; [|done]. simpl. intros [= <-].
  constructor; [|done]. rewrite !all_chars_app, P_color.
  by destruct (minimal a); rewrite !P_literal.
Qed.

Lemma ram_part_chars (a : Args) r (l : list string) :
  ram_part a r = Some l → Forall (λ p, all_chars P p = true) l.
Proof.
  unfold ram_part. destruct r as [[[u t] c]|]; [|by intros [= <-]].
  destruct (PyFloat.int_truediv u 1024) as [x|]; [|done].
  destruct (PyFloat.int_truediv t 1024) as [y|]; [|done].
  destruct (PyFloat.int_truediv c 1024) as [z|]; [|done].
  destruct (icon_labels (minimal a)) as (_ & _ & ->). simpl. intros [= <-].
  constructor; [|done].
  destruct (no_ram_cache a); simpl;
    rewrite !all_chars_app, P_color, ?P_repr;
    by destruct (minimal a); rewrite !P_literal.
Qed.

Lemma zram_part_chars (a : Args) r (l : list string) :
  zram_part a r = Some l → Forall (λ p, all_chars P p = true) l.
Proof.
  destruct r as [[u t]|].
  - intros (s & Hs & ->)%zram_part_inv.
    apply zram_text_inv in Hs
      as (gu & gt & rpart & spart & _ & _ & -> & Hr & Hsv).
    assert (Hrp : all_chars P rpart = true).
    { destruct (ratio a && (0 <? u)); [|by subst].
      destruct Hr as (q & _ & ->).
      by rewrite !all_chars_app, P_color_ratio, !P_literal. }
    assert (Hsp : all_chars P spart = true).
    { destruct (saved a && (0 <? u)); [|by subst].
      destruct Hsv as (q & d & v & _ & _ & _ & ->).
      by rewrite !all_chars_app, P_repr, !P_literal. }
    constructor; [|done]. rewrite !all_chars_app, !P_repr, Hrp, Hsp.
    by destruct (minimal a); rewrite !P_literal.
  - unfold zram_part. rewrite icon_zram.
    destruct (negb (no_zram a)); simpl; intros [= <-]; [|done].
    constructor; [|done]. rewrite !all_chars_app.
    by destruct (minimal a); rewrite !P_literal.
Qed.

Lemma swap_part_chars (a : Args) r (l : list string) :
  swap_part a r = Some l → Forall (λ p, all_chars P p = true) l.
Proof.
  destruct r as [[u t]|]; [|by intros [= <-]].
  intros (gu & gt & _ & _ & ->)%swap_part_inv.
  constructor; [|done]. cbv zeta.
  destruct (0 <? u), (minimal a); cbn [negb]; cbv iota;
    by rewrite !all_chars_app, !P_repr, !P_literal.
Qed.

Lemma output_parts_chars (a : Args) (env : Env) (parts : list string) :
  output_parts a env = Some parts → Forall (λ p, all_chars P p = true) parts.
Proof.
  unfold output_parts.
  destruct (zram_reading a env) as [z|]; [|done].
  cbn [mbind option_bind].
  destruct (cpu_part a _) as [p1|] eqn:H1; [|done].
  destruct (temp_part a _) as [p2|] eqn:H2; [|done].
  destruct (ram_part a _) as [p3|] eqn:H3; [|done].
  destruct (zram_part a _) as [p4|] eqn:H4; [|done].
  destruct (swap_part a _) as [p5|] eqn:H5; [|done].
  simpl. intros [= <-]. rewrite !Forall_app.
  eauto 10 using cpu_part_chars, temp_part_chars, ram_part_chars,
    zram_part_chars, swap_part_chars.
Qed.

End LineChars.

(** X18: What [main] prints is one line: the newline at its end is the only
    one, in normal mode as in minimal mode. *)
Theorem main_one_line (a : Args) (env : Env) (out : string) :
  main a env = Some out →
  ∃ body, out = body +:+ nl ∧ has_char (ascii_of_nat 10) body = false.
Proof.
  unfold main. destruct (output_parts a env) as [parts|] eqn:Hparts; [|done].
  simpl. intros [= <-]. eexists. split; [reflexivity|].
  apply (all_chars_has fragment_char); [|done].
  apply all_chars_join; [done|].
  exact (output_parts_chars fragment_char (λ c H, H) a env parts Hparts).
Qed.

Lemma main_one_line_witness :
  ∃ body, main args_full env_two_zram = Some (body +:+ nl) ∧
          has_char (ascii_of_nat 10) body = false.
Proof.
  destruct (main args_full env_two_zram) as [out|] eqn:H;
    [|vm_compute in H; discriminate].
  destruct (main_one_line args_full env_two_zram out H) as (body & -> & Hb).
  by exists body.
Defined.

(** A number too long for a float is read as an infinity, which is the
    temperature [main] cannot convert. *)
Example cpu_temp_overflow :
  cpu_temp_of (Some ("temp1:        +1" +:+ PyFloat.zeros 309 +:+ "°C" +:+ nl))
  = Some (S754_infinity false).
Proof. vm_compute. reflexivity. Qed.
